(** * pycent: a shallow embedding of the Centrifugo HTTP API client

    The development follows the layout of the Python package:

    - [Py]      the Python values the client manipulates (JSON data, dicts,
                numbers) and the exceptions it raises;
    - [Core]    [cent/core.py], the blocking client built on one HTTP
                session ([send], [_send_one] and the typed methods);
    - [Methods] the pydantic method descriptors of [cent/methods] and
                [cent/types], with construction and [model_dump];
    - [Sync]    [cent/client/client.py], the descriptor based facade;
    - [Async]   [cent/client/session/base_async.py] and
                [cent/client/session/aiohttp.py], the aiohttp session.

    Calls to the outside world (the HTTP server, the JSON parser) are
    section variables; every call made to them is recorded in a trace. *)

From Stdlib Require Import ZArith PrimFloat.
From stdpp Require Import base strings gmap list pretty.

Local Open Scope Z_scope.
Set Warnings "-register-all".

(** ** Python values *)

Module Py.

(** A Python object as far as the client looks into it: the image of a JSON
    document ([json.loads]) and the numbers used as timeouts. A [dict] with
    string keys is a finite map. *)
Inductive value : Type :=
| VNone
| VBool (b : bool)
| VInt (z : Z)
| VFloat (f : float)
| VStr (s : string)
| VList (l : list value)
| VDict (d : gmap string value).

(** Truth value of an object, as tested by [if], [or] and [not]. *)
Definition truthy (v : value) : bool :=
  match v with
  | VNone => false
  | VBool b => b
  | VInt z => negb (Z.eqb z 0)
  | VFloat f => negb (PrimFloat.eqb f 0%float)
  | VStr s => negb (String.eqb s "")
  | VList l => match l with [] => false | _ :: _ => true end
  | VDict d => negb (bool_decide (d = ∅))
  end.

(** [a or b] *)
Definition py_or (a b : value) : value := if truthy a then a else b.

(** Exceptions. [RequestException] and [ResponseError] are the two classes
    exported by the [cent] package; the others are raised by the interpreter
    or by the libraries the client calls. An exception built from another
    one, as in [RequestException(err)], keeps it as its argument. *)
Inductive exn : Type :=
| RequestException (args : exn_args)
| ResponseError (err : value)
| KeyError (key : string)
| TypeError (msg : string)
| AttributeError (msg : string)
| JSONDecodeError (doc : string)
| ValidationError (errors : list string)
| RuntimeError (msg : string)
| OtherError (name : string)
with exn_args : Type :=
| Message (s : string)
| Wrapped (e : exn).

Definition is_RequestException (e : exn) : bool :=
  match e with RequestException _ => true | _ => false end.

(** The name of the type of an object, used in the interpreter's messages. *)
Definition type_name (v : value) : string :=
  match v with
  | VNone => "NoneType"
  | VBool _ => "bool"
  | VInt _ => "int"
  | VFloat _ => "float"
  | VStr _ => "str"
  | VList _ => "list"
  | VDict _ => "dict"
  end.

Definition is_str (s : string) (v : value) : bool :=
  match v with VStr s' => String.eqb s s' | _ => false end.

(** [sub in s] for two strings: [sub] occurs somewhere in [s]. *)
Definition substring_of (sub s : string) : bool :=
  match String.index 0 sub s with Some _ => true | None => false end.

(** [key in v] for a string [key]. *)
Definition py_contains (key : string) (v : value) : exn + bool :=
  match v with
  | VDict d => inr (bool_decide (is_Some (d !! key)))
  | VList l => inr (existsb (is_str key) l)
  | VStr s => inr (substring_of key s)
  | _ => inl (TypeError ("argument of type '" +:+ type_name v +:+ "' is not iterable"))
  end.

(** [v[key]] for a string [key]. *)
Definition py_getitem (v : value) (key : string) : exn + value :=
  match v with
  | VDict d => match d !! key with Some x => inr x | None => inl (KeyError key) end
  | VList _ => inl (TypeError "list indices must be integers or slices, not str")
  | VStr _ => inl (TypeError "string indices must be integers, not 'str'")
  | _ => inl (TypeError ("'" +:+ type_name v +:+ "' object is not subscriptable"))
  end.

(** [v.get(key, default)] *)
Definition py_get (v : value) (key : string) (dflt : value) : exn + value :=
  match v with
  | VDict d => inr (default dflt (d !! key))
  | _ => inl (AttributeError ("'" +:+ type_name v +:+ "' object has no attribute 'get'"))
  end.

End Py.

Import Py.

(** ** Effects

    A computation reads and updates a state of type [S] (the objects it
    mutates and the trace of its calls to the outside) and either returns a
    value or raises an exception. The state survives a raised exception, as
    the heap does in Python. *)

Module Eff.

Definition M (S A : Type) : Type := S -> (exn + A) * S.

Definition ret {S A} (a : A) : M S A := fun s => (inr a, s).

Definition raise {S A} (e : exn) : M S A := fun s => (inl e, s).

Definition bind {S A B} (c : M S A) (k : A -> M S B) : M S B :=
  fun s => match c s with
           | (inr a, s') => k a s'
           | (inl e, s') => (inl e, s')
           end.

(** [try: c  except Exception as e: h e] *)
Definition try_except {S A} (c : M S A) (h : exn -> M S A) : M S A :=
  fun s => match c s with
           | (inr a, s') => (inr a, s')
           | (inl e, s') => h e s'
           end.

(** A pure computation that may raise. *)
Definition lift {S A} (r : exn + A) : M S A := fun s => (r, s).

(** The current state. *)
Definition get {S} : M S S := fun s => (inr s, s).

End Eff.

Import Eff.

Notation "x <- c ;; k" := (bind c (fun x => k))
  (at level 100, c at next level, right associativity).
Notation "c ;;; k" := (bind c (fun _ => k))
  (at level 100, right associativity).

(** What the client exchanges with the HTTP library. *)

Record Request : Type := mkRequest {
  url : string;
  headers : gmap string string;
  json : gmap string value;
  timeout : value;
}.

Record Response : Type := mkResponse {
  status_code : Z;
  content : string;
}.

(** The calls that leave the process, in the order they are made. *)
Inductive event : Type :=
| Post (r : Request)
| Decode (body : string).

Definition is_Decode (e : event) : bool :=
  match e with Decode _ => true | Post _ => false end.

(** ** [cent/core.py]: the blocking client *)

Module Core.

(** [httpx.Client], as far as the client touches it. *)
Record Session : Type := mkSession {
  session_headers : gmap string string;
  session_timeout : value;
}.

(** [Client] as its methods find it when they run: the attributes they
    read, and the session it holds as that session then is. [json_encoder]
    and [kwargs] are stored by [__init__] and read nowhere. *)
Record Client : Type := mkClient {
  address : string;
  api_key : string;
  client_timeout : value;
  session : Session;
}.

(** The payload built by [ParamsMixin]: a dict, unless the builder raises. *)
Definition params : Type := exn + gmap string value.

(** The payload builders of [cent.mixins.ParamsMixin], which [Client]
    inherits; every typed method calls the one that bears its name. *)
Class ParamsMixin : Type := {
  get_publish_params : value -> value -> value -> params;
  get_broadcast_params : value -> value -> value -> params;
  get_subscribe_params : value -> value -> value -> params;
  get_unsubscribe_params : value -> value -> value -> params;
  get_disconnect_params : value -> value -> params;
  get_presence_params : value -> params;
  get_presence_stats_params : value -> params;
  get_history_params : value -> value -> value -> value -> params;
  get_history_remove_params : value -> params;
  get_channels_params : value -> params;
  get_info_params : params;
}.

(** The lower case of a header name, on ASCII as the HTTP libraries take
    it. *)
Definition lower_ascii (c : Ascii.ascii) : Ascii.ascii :=
  let n := Ascii.nat_of_ascii c in
  if ((65 <=? n) && (n <=? 90))%nat then Ascii.ascii_of_nat (n + 32) else c.

Fixpoint lower (s : string) : string :=
  match s with
  | EmptyString => EmptyString
  | String c s => String (lower_ascii c) (lower s)
  end.

(** [headers[name] = v] on the headers of an HTTP session. Header names are
    compared without regard to case: the entry takes the place of every
    entry under the same name, however that was spelled. *)
Definition headers_setitem (name v : string) (h : gmap string string)
    : gmap string string :=
  <[name := v]> (filter (fun kv => lower kv.1 ≠ lower name) h).

(** [Client._prepare_session], on the session object. *)
Definition _prepare_session (api_key : string) (timeout : value) (s : Session)
    : Session :=
  {| session_headers :=
       headers_setitem "Authorization" ("apikey " +:+ api_key) (session_headers s);
     session_timeout := timeout |}.

(** The session objects alive, each under its identity, and the trace. Two
    clients built on one session hold the same identity. *)
Record world : Type := mkWorld {
  sessions : gmap nat Session;
  log : list event;
}.

(** A [Client] object: its attributes, the session by reference. *)
Record instance : Type := mkInstance {
  instance_address : string;
  instance_api_key : string;
  instance_timeout : value;
  instance_session : nat;
}.

(** The client as its methods find it in a world. *)
Definition view (w : world) (c : instance) : option Client :=
  match sessions w !! instance_session c with
  | Some s =>
      Some {| address := instance_address c;
              api_key := instance_api_key c;
              client_timeout := instance_timeout c;
              session := s |}
  | None => None
  end.

Section WithWorld.

(** The server behind the HTTP library: from the calls made so far and the
    request, either the library raises or a response arrives. *)
Variable network : list event -> Request -> exn + Response.

(** [json.loads], [None] where the document is not JSON. *)
Variable json_loads : string -> option value.

(** [httpx.Client()] *)
Variable httpx_Client : Session.

Context `{!ParamsMixin}.

(** [Client.__init__]; the defaults of [api_key] and [timeout] are [""]
    and [1]. A missing [session] is a new [httpx.Client()]; a session of the
    caller's is kept as it is, by reference, and [_prepare_session] writes
    into that very object. *)
Definition __init__ (address : string) (api_key : option string)
    (timeout : option value) (session : option nat) : M world instance :=
  fun w =>
    let api_key := default "" api_key in
    let timeout := default (VInt 1) timeout in
    let '(r, objects) :=
      match session with
      | Some r => (r, sessions w)
      | None =>
          let r := fresh (dom (sessions w)) in
          (r, <[r := httpx_Client]> (sessions w))
      end in
    (inr {| instance_address := address;
            instance_api_key := api_key;
            instance_timeout := timeout;
            instance_session := r |},
     {| sessions := alter (_prepare_session api_key timeout) r objects;
        log := log w |}).

(** [session.post(url=..., json=..., timeout=...)]: the request carries the
    headers of the session and the timeout of the call. *)
Definition post (s : Session) (url : string) (json : gmap string value)
    (timeout : value) : M (list event) Response :=
  fun tr =>
    let req := mkRequest url (session_headers s) json timeout in
    (network tr req, tr ++ [Post req]).

(** [resp.json()] *)
Definition Response_json (resp : Response) : M (list event) value :=
  fun tr =>
    (match json_loads (content resp) with
     | Some v => inr v
     | None => inl (JSONDecodeError (content resp))
     end, tr ++ [Decode (content resp)]).

(** [Client.send] *)
Definition send (self : Client) (method : string) (payload : gmap string value)
    : M (list event) Response :=
  let payload := <["method" := VStr method]> payload in
  resp <- try_except
            (post (session self) (address self) payload (client_timeout self))
            (fun err =>
               if is_RequestException err
               then raise (RequestException (Wrapped err))
               else raise err) ;;
  if negb (Z.eqb (status_code resp) 200)
  then raise (RequestException
                (Message ("wrong status code: " +:+ pretty (status_code resp))))
  else ret resp.

(** [Client._send_one] *)
Definition _send_one (self : Client) (method : string) (payload : params)
    : M (list event) value :=
  payload <- lift payload ;;
  resp <- send self method payload ;;
  resp_json <- Response_json resp ;;
  has_error <- lift (py_contains "error" resp_json) ;;
  if (has_error : bool)
  then err <- lift (py_getitem resp_json "error") ;;
       raise (ResponseError err)
  else lift (py_get resp_json "result" (VDict ∅)).

(** The typed methods. An argument with a default in the signature is an
    [option], [None] standing for "not passed". *)

Definition publish (self : Client) (channel data : value)
    (skip_history : option value) : M (list event) value :=
  result <- _send_one self "publish"
              (get_publish_params channel data
                 (default (VBool false) skip_history)) ;;
  ret result.

Definition broadcast (self : Client) (channels data : value)
    (skip_history : option value) : M (list event) value :=
  result <- _send_one self "broadcast"
              (get_broadcast_params channels data
                 (default (VBool false) skip_history)) ;;
  ret result.

Definition subscribe (self : Client) (user channel : value)
    (client : option value) : M (list event) value :=
  _send_one self "subscribe"
    (get_subscribe_params user channel (default VNone client)) ;;;
  ret VNone.

Definition unsubscribe (self : Client) (user channel : value)
    (client : option value) : M (list event) value :=
  _send_one self "unsubscribe"
    (get_unsubscribe_params user channel (default VNone client)) ;;;
  ret VNone.

Definition disconnect (self : Client) (user : value)
    (client : option value) : M (list event) value :=
  _send_one self "disconnect"
    (get_disconnect_params user (default VNone client)) ;;;
  ret VNone.

Definition presence (self : Client) (channel : value) : M (list event) value :=
  result <- _send_one self "presence" (get_presence_params channel) ;;
  lift (py_getitem result "presence").

Definition presence_stats (self : Client) (channel : value)
    : M (list event) value :=
  result <- _send_one self "presence_stats" (get_presence_stats_params channel) ;;
  num_clients <- lift (py_getitem result "num_clients") ;;
  num_users <- lift (py_getitem result "num_users") ;;
  ret (VDict (<["num_clients" := num_clients]>
               (<["num_users" := num_users]> ∅))).

Definition history (self : Client) (channel : value)
    (limit since reverse : option value) : M (list event) value :=
  result <- _send_one self "history"
              (get_history_params channel
                 (default (VInt 0) limit)
                 (default VNone since)
                 (default (VBool false) reverse)) ;;
  publications <- lift (py_get result "publications" (VList [])) ;;
  offset <- lift (py_get result "offset" (VInt 0)) ;;
  epoch <- lift (py_get result "epoch" (VStr "")) ;;
  ret (VDict (<["publications" := publications]>
               (<["offset" := offset]>
                 (<["epoch" := epoch]> ∅)))).

Definition history_remove (self : Client) (channel : value)
    : M (list event) value :=
  _send_one self "history_remove" (get_history_remove_params channel) ;;;
  ret VNone.

Definition channels (self : Client) (pattern : option value)
    : M (list event) value :=
  result <- _send_one self "channels"
              (get_channels_params (default (VStr "") pattern)) ;;
  lift (py_getitem result "channels").

Definition info (self : Client) : M (list event) value :=
  result <- _send_one self "info" get_info_params ;;
  ret result.

(** One API call: a typed method with its arguments. *)
Inductive operation : Type :=
| Publish (channel data : value) (skip_history : option value)
| Broadcast (channels data : value) (skip_history : option value)
| Subscribe (user channel : value) (client : option value)
| Unsubscribe (user channel : value) (client : option value)
| Disconnect (user : value) (client : option value)
| Presence (channel : value)
| PresenceStats (channel : value)
| History (channel : value) (limit since reverse : option value)
| HistoryRemove (channel : value)
| Channels (pattern : option value)
| Info.

Definition call (self : Client) (op : operation) : M (list event) value :=
  match op with
  | Publish c d sh => publish self c d sh
  | Broadcast cs d sh => broadcast self cs d sh
  | Subscribe u c cl => subscribe self u c cl
  | Unsubscribe u c cl => unsubscribe self u c cl
  | Disconnect u cl => disconnect self u cl
  | Presence c => presence self c
  | PresenceStats c => presence_stats self c
  | History c l s r => history self c l s r
  | HistoryRemove c => history_remove self c
  | Channels p => channels self p
  | Info => info self
  end.

(** The call of a typed method on a client object: the method runs on the
    client as the world has it by then. A client always holds a session that
    is alive; the other case only makes the function total. *)
Definition invoke (c : instance) (op : operation) : M world value :=
  fun w =>
    match view w c with
    | Some self =>
        let '(r, tr) := call self op (log w) in
        (r, {| sessions := sessions w; log := tr |})
    | None => (inl (OtherError "ReferenceError"), w)
    end.

(** The name each method puts on the wire and the payload it builds. *)
Definition wire_name (op : operation) : string :=
  match op with
  | Publish _ _ _ => "publish"
  | Broadcast _ _ _ => "broadcast"
  | Subscribe _ _ _ => "subscribe"
  | Unsubscribe _ _ _ => "unsubscribe"
  | Disconnect _ _ => "disconnect"
  | Presence _ => "presence"
  | PresenceStats _ => "presence_stats"
  | History _ _ _ _ => "history"
  | HistoryRemove _ => "history_remove"
  | Channels _ => "channels"
  | Info => "info"
  end.

Definition payload_of (op : operation) : params :=
  match op with
  | Publish c d sh => get_publish_params c d (default (VBool false) sh)
  | Broadcast cs d sh => get_broadcast_params cs d (default (VBool false) sh)
  | Subscribe u c cl => get_subscribe_params u c (default VNone cl)
  | Unsubscribe u c cl => get_unsubscribe_params u c (default VNone cl)
  | Disconnect u cl => get_disconnect_params u (default VNone cl)
  | Presence c => get_presence_params c
  | PresenceStats c => get_presence_stats_params c
  | History c l s r =>
      get_history_params c (default (VInt 0) l) (default VNone s)
        (default (VBool false) r)
  | HistoryRemove c => get_history_remove_params c
  | Channels p => get_channels_params (default (VStr "") p)
  | Info => get_info_params
  end.

(** The request a call puts on the wire once its payload is built. *)
Definition request_of (self : Client) (method : string)
    (payload : gmap string value) : Request :=
  mkRequest (address self) (session_headers (session self))
    (<["method" := VStr method]> payload) (client_timeout self).

(** *** How a call runs *)

(** Every typed method starts with [_send_one] on its wire name and payload;
    an exception raised there leaves the method unchanged. *)
Lemma call_raises self op tr e tr' :
  _send_one self (wire_name op) (payload_of op) tr = (inl e, tr') ->
  call self op tr = (inl e, tr').
Proof.
  intros Hs. destruct op; cbn [call wire_name payload_of] in *;
    unfold publish, broadcast, subscribe, unsubscribe, disconnect, presence,
      presence_stats, history, history_remove, channels, info, bind;
    rewrite Hs; reflexivity.
Qed.

(** [send] when the library raises. *)
Lemma send_library_raises self method payload tr e :
  network tr (request_of self method payload) = inl e ->
  send self method payload tr =
    (inl (if is_RequestException e then RequestException (Wrapped e) else e),
     tr ++ [Post (request_of self method payload)]).
Proof.
  intros Hnet. unfold send, bind, try_except, post.
  fold (request_of self method payload). rewrite Hnet.
  destruct (is_RequestException e); reflexivity.
Qed.

(** [send] when a response arrives. *)
Lemma send_response self method payload tr resp :
  network tr (request_of self method payload) = inr resp ->
  send self method payload tr =
    (if Z.eqb (status_code resp) 200 then inr resp
     else inl (RequestException
                 (Message ("wrong status code: " +:+ pretty (status_code resp)))),
     tr ++ [Post (request_of self method payload)]).
Proof.
  intros Hnet. unfold send, bind, try_except, post.
  fold (request_of self method payload). rewrite Hnet. cbn.
  destruct (Z.eqb (status_code resp) 200); reflexivity.
Qed.

(** [_send_one] on a 200 response whose body decodes to a dict. *)
Lemma _send_one_dict self method payload tr resp d :
  network tr (request_of self method payload) = inr resp ->
  status_code resp = 200 ->
  json_loads (content resp) = Some (VDict d) ->
  _send_one self method (inr payload) tr =
    (match d !! "error" with
     | Some err => inl (ResponseError err)
     | None => inr (default (VDict ∅) (d !! "result"))
     end,
     tr ++ [Post (request_of self method payload); Decode (content resp)]).
Proof.
  intros Hnet Hst Hjs. unfold _send_one, bind, lift.
  rewrite (send_response _ _ _ _ _ Hnet), Hst. cbn.
  unfold Response_json. rewrite Hjs. cbn.
  rewrite <- app_assoc. cbn.
  destruct (d !! "error") as [err|] eqn:E.
  - rewrite bool_decide_eq_true_2 by eauto. reflexivity.
  - rewrite bool_decide_eq_false_2 by (intros [? ?]; discriminate). reflexivity.
Qed.

(** A call whose payload builder succeeds runs [_send_one] on that payload. *)
Lemma call_raises_payload self op payload tr e tr' :
  payload_of op = inr payload ->
  _send_one self (wire_name op) (inr payload) tr = (inl e, tr') ->
  call self op tr = (inl e, tr').
Proof.
  intros Hp Hs. apply call_raises. rewrite Hp. exact Hs.
Qed.

(** C1. Whatever the typed method, when the response is a 200 whose body is
    an envelope with [error] set to [{"code": c, "message": m}], the call
    raises [ResponseError] with exactly that object as its argument, and
    returns nothing. *)
Theorem error_envelope_raises self op payload tr resp d c m :
  payload_of op = inr payload ->
  network tr (request_of self (wire_name op) payload) = inr resp ->
  status_code resp = 200 ->
  json_loads (content resp) = Some (VDict d) ->
  d !! "error" =
    Some (VDict (<["code" := VInt c]> (<["message" := VStr m]> ∅))) ->
  call self op tr =
    (inl (ResponseError
            (VDict (<["code" := VInt c]> (<["message" := VStr m]> ∅)))),
     tr ++ [Post (request_of self (wire_name op) payload);
            Decode (content resp)]).
Proof.
  intros Hp Hnet Hst Hjs Herr.
  apply (call_raises_payload _ _ _ _ _ _ Hp).
  rewrite (_send_one_dict _ _ _ _ _ _ Hnet Hst Hjs), Herr. reflexivity.
Qed.

(** C3. Whatever the typed method, when the response arrives with a status
    other than 200 the call raises [RequestException] with the status in
    its message; the only call made to the outside is the POST, the body is
    never handed to the JSON decoder. *)
Theorem wrong_status_raises self op payload tr resp :
  payload_of op = inr payload ->
  network tr (request_of self (wire_name op) payload) = inr resp ->
  status_code resp ≠ 200 ->
  call self op tr =
    (inl (RequestException
            (Message ("wrong status code: " +:+ pretty (status_code resp)))),
     tr ++ [Post (request_of self (wire_name op) payload)])
  ∧ filter (fun e => is_Decode e = true) (snd (call self op tr)) =
    filter (fun e => is_Decode e = true) tr.
Proof.
  intros Hp Hnet Hst.
  assert (Hcall : call self op tr =
    (inl (RequestException
            (Message ("wrong status code: " +:+ pretty (status_code resp)))),
     tr ++ [Post (request_of self (wire_name op) payload)])).
  { apply (call_raises_payload _ _ _ _ _ _ Hp).
    unfold _send_one, bind, lift.
    rewrite (send_response _ _ _ _ _ Hnet).
    destruct (Z.eqb_spec (status_code resp) 200) as [E|_]; [contradiction|].
    reflexivity. }
  split; [exact Hcall|].
  rewrite Hcall. cbn [snd]. rewrite filter_app. cbn.
  apply app_nil_r.
Qed.

(** C9. In [_send_one], on a 200 response whose body decodes to a dict: a
    key ["error"] wins, with or without a ["result"] beside it, and raises
    [ResponseError] on its value; without it the value under ["result"] is
    returned, and the empty dict when that key is absent too. *)
Theorem _send_one_envelope self method payload tr resp d :
  network tr (request_of self method payload) = inr resp ->
  status_code resp = 200 ->
  json_loads (content resp) = Some (VDict d) ->
  (forall err, d !! "error" = Some err ->
     fst (_send_one self method (inr payload) tr) = inl (ResponseError err))
  ∧ (d !! "error" = None ->
     forall result, d !! "result" = Some result ->
     fst (_send_one self method (inr payload) tr) = inr result)
  ∧ (d !! "error" = None -> d !! "result" = None ->
     fst (_send_one self method (inr payload) tr) = inr (VDict ∅)).
Proof.
  intros Hnet Hst Hjs.
  rewrite (_send_one_dict _ _ _ _ _ _ Hnet Hst Hjs). cbn [fst].
  repeat split.
  - intros err ->. reflexivity.
  - intros -> result ->. reflexivity.
  - intros -> ->. reflexivity.
Qed.

(** [_send_one] hands the ["result"] member back when there is no ["error"]. *)
Lemma _send_one_result self method payload tr resp d :
  network tr (request_of self method payload) = inr resp ->
  status_code resp = 200 ->
  json_loads (content resp) = Some (VDict d) ->
  d !! "error" = None ->
  _send_one self method (inr payload) tr =
    (inr (default (VDict ∅) (d !! "result")),
     tr ++ [Post (request_of self method payload); Decode (content resp)]).
Proof.
  intros Hnet Hst Hjs Herr.
  rewrite (_send_one_dict _ _ _ _ _ _ Hnet Hst Hjs), Herr. reflexivity.
Qed.

(** C4, as the code has it. On a 200 response whose envelope has no
    ["error"] and a dict [r] under ["result"]:
    - [presence_stats] returns a dict with the two keys [num_clients] and
      [num_users] and nothing else, their values taken from [r] (a
      [KeyError] when one is missing);
    - [history] returns a dict with the three keys [publications], [offset]
      and [epoch] and nothing else, taken from [r] or defaulting to [[]],
      [0] and [""];
    - [presence] and [channels] return the value under their one key;
    - [publish], [broadcast] and [info] return [r] itself, whatever keys it
      has;
    - [subscribe], [unsubscribe], [disconnect] and [history_remove] return
      [None]. *)
Theorem typed_result_projection self op payload tr resp d r :
  payload_of op = inr payload ->
  network tr (request_of self (wire_name op) payload) = inr resp ->
  status_code resp = 200 ->
  json_loads (content resp) = Some (VDict d) ->
  d !! "error" = None ->
  d !! "result" = Some (VDict r) ->
  fst (call self op tr) =
    match op with
    | PresenceStats _ =>
        match r !! "num_clients", r !! "num_users" with
        | Some nc, Some nu =>
            inr (VDict (<["num_clients" := nc]> (<["num_users" := nu]> ∅)))
        | None, _ => inl (KeyError "num_clients")
        | Some _, None => inl (KeyError "num_users")
        end
    | History _ _ _ _ =>
        inr (VDict
               (<["publications" := default (VList []) (r !! "publications")]>
                 (<["offset" := default (VInt 0) (r !! "offset")]>
                   (<["epoch" := default (VStr "") (r !! "epoch")]> ∅))))
    | Presence _ =>
        match r !! "presence" with
        | Some p => inr p
        | None => inl (KeyError "presence")
        end
    | Channels _ =>
        match r !! "channels" with
        | Some cs => inr cs
        | None => inl (KeyError "channels")
        end
    | Publish _ _ _ | Broadcast _ _ _ | Info => inr (VDict r)
    | Subscribe _ _ _ | Unsubscribe _ _ _ | Disconnect _ _
    | HistoryRemove _ => inr VNone
    end.
Proof.
  intros Hp Hnet Hst Hjs Herr Hres.
  pose proof (_send_one_result _ _ _ _ _ _ Hnet Hst Hjs Herr) as Hs.
  rewrite Hres in Hs. cbn [default from_option id] in Hs.
  destruct op; cbn [call wire_name payload_of] in *;
    unfold publish, broadcast, subscribe, unsubscribe, disconnect, presence,
      presence_stats, history, history_remove, channels, info, bind, lift, ret;
    rewrite Hp, Hs; cbn [py_getitem py_get fst]; try reflexivity.
  destruct (r !! "num_clients"); [|reflexivity].
  destruct (r !! "num_users"); reflexivity.
Qed.

(** *** What a call puts on the wire *)

(** [_send_one] only adds to the trace, and the one request it may post is
    the one built from its payload. *)
Lemma _send_one_trace self method payload tr :
  exists evs,
    snd (_send_one self method payload tr) = tr ++ evs
    ∧ forall req, Post req ∈ evs ->
        exists p, payload = inr p ∧ req = request_of self method p.
Proof.
  destruct payload as [e|p].
  { exists []. split; [cbn; by rewrite app_nil_r|]. intros req Hin. inversion Hin. }
  unfold _send_one, bind, lift. cbn.
  destruct (network tr (request_of self method p)) as [e|resp] eqn:Hnet.
  - rewrite (send_library_raises _ _ _ _ _ Hnet).
    exists [Post (request_of self method p)]. split; [reflexivity|].
    intros req Hin. apply list_elem_of_singleton in Hin.
    exists p. split; [reflexivity|congruence].
  - rewrite (send_response _ _ _ _ _ Hnet).
    destruct (Z.eqb (status_code resp) 200).
    + exists [Post (request_of self method p); Decode (content resp)].
      split.
      * unfold Response_json.
        destruct (json_loads (content resp)) as [v|]; cbn;
          rewrite <- ?app_assoc; cbn; [|reflexivity].
        destruct (py_contains "error" v) as [e|[|]]; cbn; try reflexivity.
        destruct (py_getitem v "error"); reflexivity.
      * intros req Hin. exists p. split; [reflexivity|].
        apply elem_of_cons in Hin as [Hin|Hin]; [congruence|].
        apply list_elem_of_singleton in Hin. discriminate.
    + exists [Post (request_of self method p)]. split; [reflexivity|].
      intros req Hin. apply list_elem_of_singleton in Hin.
      exists p. split; [reflexivity|congruence].
Qed.

(** A typed method makes no call to the outside of its own. *)
Lemma call_trace self op tr :
  snd (call self op tr) =
  snd (_send_one self (wire_name op) (payload_of op) tr).
Proof.
  destruct op; cbn [call wire_name payload_of];
    unfold publish, broadcast, subscribe, unsubscribe, disconnect, presence,
      presence_stats, history, history_remove, channels, info, bind, lift, ret;
    match goal with
    | |- context [_send_one ?s ?m ?p ?t] =>
        destruct (_send_one s m p t) as [[e|v] tr']; cbn [snd]; try reflexivity
    end.
  - destruct (py_getitem v "num_clients"); [reflexivity|].
    destruct (py_getitem v "num_users"); reflexivity.
  - destruct (py_get v "publications" (VList [])); [reflexivity|].
    destruct (py_get v "offset" (VInt 0)); [reflexivity|].
    destruct (py_get v "epoch" (VStr "")); reflexivity.
Qed.

(** Every request a call posts is addressed to the client's address, with
    the headers of its session and its own timeout. *)
Lemma call_requests self op tr req :
  Post req ∈ snd (call self op tr) ->
  Post req ∈ tr
  ∨ (url req = address self
     ∧ headers req = session_headers (session self)
     ∧ timeout req = client_timeout self
     ∧ json req !! "method" = Some (VStr (wire_name op))).
Proof.
  rewrite call_trace.
  destruct (_send_one_trace self (wire_name op) (payload_of op) tr)
    as (evs & -> & Hevs).
  intros Hin. apply elem_of_app in Hin as [Hin|Hin]; [by left|right].
  destruct (Hevs _ Hin) as (p & _ & ->). cbn.
  repeat split. apply lookup_insert_eq.
Qed.

(** *** Client objects and the sessions they share *)

(** Setting a header: the name holds the value, no other spelling of the
    name is left, and the other names are untouched. *)
Lemma headers_setitem_lookup name v (h : gmap string string) :
  headers_setitem name v h !! name = Some v
  ∧ (forall k, k ≠ name -> lower k = lower name ->
       headers_setitem name v h !! k = None)
  ∧ (forall k, lower k ≠ lower name -> headers_setitem name v h !! k = h !! k).
Proof.
  unfold headers_setitem. split; [apply lookup_insert_eq|]. split.
  - intros k Hk Hlow. rewrite lookup_insert_ne by done.
    apply map_lookup_filter_None. right. intros x _ Hne. by apply Hne.
  - intros k Hlow.
    rewrite lookup_insert_ne by (intros ->; by apply Hlow).
    destruct (h !! k) as [x|] eqn:Hx.
    + by apply map_lookup_filter_Some.
    + apply map_lookup_filter_None. by left.
Qed.

(** A client built without a session gets a new session object. *)
Lemma init_own address api_key timeout w :
  __init__ address api_key timeout None w =
    (inr (mkInstance address (default "" api_key) (default (VInt 1) timeout)
            (fresh (dom (sessions w)))),
     mkWorld
       (<[fresh (dom (sessions w)) :=
            _prepare_session (default "" api_key) (default (VInt 1) timeout)
              httpx_Client]> (sessions w))
       (log w)).
Proof. unfold __init__. cbn. by rewrite alter_insert_eq. Qed.

(** A client built on a session of the caller's writes into that object. *)
Lemma init_shared address api_key timeout r s w :
  sessions w !! r = Some s ->
  __init__ address api_key timeout (Some r) w =
    (inr (mkInstance address (default "" api_key) (default (VInt 1) timeout) r),
     mkWorld
       (<[r := _prepare_session (default "" api_key) (default (VInt 1) timeout) s]>
          (sessions w))
       (log w)).
Proof.
  intros Hs. unfold __init__. cbn. do 2 f_equal.
  apply map_eq. intros i. destruct (decide (i = r)) as [->|Hne].
  - by rewrite lookup_alter_eq, lookup_insert_eq, Hs.
  - by rewrite lookup_alter_ne, lookup_insert_ne.
Qed.

(** A call on a client object is the call on the client as the world has
    it. *)
Lemma invoke_view c op w self :
  view w c = Some self ->
  invoke c op w =
    (fst (call self op (log w)),
     mkWorld (sessions w) (snd (call self op (log w)))).
Proof.
  intros Hv. unfold invoke. rewrite Hv.
  by destruct (call self op (log w)).
Qed.

(** A typed method whose payload is built posts its request first, and only
    that one. *)
Lemma call_posts_first self op payload tr :
  payload_of op = inr payload ->
  exists rest,
    snd (call self op tr) =
      tr ++ Post (request_of self (wire_name op) payload) :: rest
    ∧ forall r, Post r ∉ rest.
Proof.
  intros Hp. rewrite call_trace, Hp. unfold _send_one, bind, lift.
  destruct (network tr (request_of self (wire_name op) payload))
    as [e|resp] eqn:Hnet.
  - rewrite (send_library_raises _ _ _ _ _ Hnet).
    exists []. split; [reflexivity|]. intros r Hin. inversion Hin.
  - rewrite (send_response _ _ _ _ _ Hnet).
    destruct (Z.eqb (status_code resp) 200).
    + exists [Decode (content resp)]. split.
      * unfold Response_json.
        destruct (json_loads (content resp)) as [v|]; cbn;
          rewrite <- ?app_assoc; cbn; [|reflexivity].
        destruct (py_contains "error" v) as [e|[|]]; cbn; try reflexivity.
        destruct (py_getitem v "error"); reflexivity.
      * intros r Hin. apply list_elem_of_singleton in Hin. discriminate.
    + exists []. split; [reflexivity|]. intros r Hin. inversion Hin.
Qed.

(** *** Failures of the transport and of the body *)

(** X1. When the HTTP library raises instead of answering, every typed
    method raises too: a [RequestException] comes back wrapped in a new
    [RequestException] that holds it, any other exception comes back as it
    is. The request was posted once and nothing was decoded. *)
Theorem library_failure_surfaces self op payload tr e :
  payload_of op = inr payload ->
  network tr (request_of self (wire_name op) payload) = inl e ->
  call self op tr =
    (inl (if is_RequestException e then RequestException (Wrapped e) else e),
     tr ++ [Post (request_of self (wire_name op) payload)]).
Proof.
  intros Hp Hnet. apply (call_raises_payload _ _ _ _ _ _ Hp).
  unfold _send_one, bind, lift.
  rewrite (send_library_raises _ _ _ _ _ Hnet). reflexivity.
Qed.

(** X2. A typed method never posts twice and never decodes twice: it adds
    to the trace nothing when its payload builder raises (and raises the
    same), one POST when the library raises or the status is not 200, and
    one POST followed by one decoding of the body on a 200. The request is
    sent to the address of the client; its JSON is the payload with the wire
    name under ["method"], over whatever the payload had there. *)
Theorem call_posts_once self op tr :
  match payload_of op with
  | inl e => call self op tr = (inl e, tr)
  | inr payload =>
      exists req,
        url req = address self
        ∧ json req !! "method" = Some (VStr (wire_name op))
        ∧ (forall k, k ≠ "method" -> json req !! k = payload !! k)
        ∧ snd (call self op tr) =
            tr ++ Post req ::
              match network tr req with
              | inr resp =>
                  if Z.eqb (status_code resp) 200
                  then [Decode (content resp)] else []
              | inl _ => []
              end
  end.
Proof.
  destruct (payload_of op) as [e|payload] eqn:Hp.
  - apply call_raises. rewrite Hp. reflexivity.
  - exists (request_of self (wire_name op) payload).
    split; [reflexivity|]. split; [apply lookup_insert_eq|].
    split; [intros k Hk; cbn; by rewrite lookup_insert_ne|].
    rewrite call_trace, Hp. unfold _send_one, bind, lift.
    destruct (network tr (request_of self (wire_name op) payload))
      as [e|resp] eqn:Hnet.
    + rewrite (send_library_raises _ _ _ _ _ Hnet). reflexivity.
    + rewrite (send_response _ _ _ _ _ Hnet).
      destruct (Z.eqb (status_code resp) 200); [|reflexivity].
      unfold Response_json.
      destruct (json_loads (content resp)) as [v|]; cbn;
        rewrite <- ?app_assoc; cbn; [|reflexivity].
      destruct (py_contains "error" v) as [e|[|]]; cbn; try reflexivity.
      destruct (py_getitem v "error"); reflexivity.
Qed.

(** X3. A 200 response whose body is not JSON makes every typed method
    raise the decoder's error, after the POST and the one attempt to
    decode. *)
Theorem undecodable_body_raises self op payload tr resp :
  payload_of op = inr payload ->
  network tr (request_of self (wire_name op) payload) = inr resp ->
  status_code resp = 200 ->
  json_loads (content resp) = None ->
  call self op tr =
    (inl (JSONDecodeError (content resp)),
     tr ++ [Post (request_of self (wire_name op) payload);
            Decode (content resp)]).
Proof.
  intros Hp Hnet Hst Hjs. apply (call_raises_payload _ _ _ _ _ _ Hp).
  unfold _send_one, bind, lift.
  rewrite (send_response _ _ _ _ _ Hnet), Hst. cbn.
  unfold Response_json. rewrite Hjs. cbn. by rewrite <- app_assoc.
Qed.

(** [_send_one] on a 200 response whose body decodes to [v]. *)
Lemma _send_one_decoded self method payload tr resp v :
  network tr (request_of self method payload) = inr resp ->
  status_code resp = 200 ->
  json_loads (content resp) = Some v ->
  _send_one self method (inr payload) tr =
    (match py_contains "error" v with
     | inl e => inl e
     | inr true =>
         match py_getitem v "error" with
         | inl e => inl e
         | inr err => inl (ResponseError err)
         end
     | inr false => py_get v "result" (VDict ∅)
     end,
     tr ++ [Post (request_of self method payload); Decode (content resp)]).
Proof.
  intros Hnet Hst Hjs. unfold _send_one, bind, lift.
  rewrite (send_response _ _ _ _ _ Hnet), Hst. cbn.
  unfold Response_json. rewrite Hjs. cbn. rewrite <- app_assoc. cbn.
  destruct (py_contains "error" v) as [e|[|]]; cbn; try reflexivity.
  destruct (py_getitem v "error"); reflexivity.
Qed.

(** X4. A 200 response whose body is JSON but not an object never yields a
    result and is never taken for an API error: every typed method raises
    [TypeError] or [AttributeError]. *)
Theorem non_object_body_raises self op payload tr resp v :
  payload_of op = inr payload ->
  network tr (request_of self (wire_name op) payload) = inr resp ->
  status_code resp = 200 ->
  json_loads (content resp) = Some v ->
  (forall d, v ≠ VDict d) ->
  exists msg,
    fst (call self op tr) = inl (TypeError msg)
    ∨ fst (call self op tr) = inl (AttributeError msg).
Proof.
  intros Hp Hnet Hst Hjs Hv.
  pose proof (_send_one_decoded _ _ _ _ _ _ Hnet Hst Hjs) as Hs.
  assert (Hraise : exists msg tr',
            _send_one self (wire_name op) (inr payload) tr = (inl (TypeError msg), tr')
            ∨ _send_one self (wire_name op) (inr payload) tr
              = (inl (AttributeError msg), tr')).
  { rewrite Hs. destruct v; cbn; try (eexists _, _; left; reflexivity).
    - destruct (substring_of "error" s);
        eexists _, _; [left|right]; reflexivity.
    - destruct (existsb (is_str "error") l);
        eexists _, _; [left|right]; reflexivity.
    - by destruct (Hv d). }
  destruct Hraise as (msg & tr' & [Hr|Hr]); exists msg; [left|right];
    by rewrite (call_raises_payload _ _ _ _ _ _ Hp Hr).
Qed.

(** *** Results at the edges *)

(** What a typed method returns when [_send_one] hands [result] back. *)
Lemma call_returns self op payload tr result tr' :
  payload_of op = inr payload ->
  _send_one self (wire_name op) (inr payload) tr = (inr result, tr') ->
  fst (call self op tr) =
    match op with
    | Publish _ _ _ | Broadcast _ _ _ | Info => inr result
    | Subscribe _ _ _ | Unsubscribe _ _ _ | Disconnect _ _
    | HistoryRemove _ => inr VNone
    | Presence _ => py_getitem result "presence"
    | Channels _ => py_getitem result "channels"
    | PresenceStats _ =>
        match py_getitem result "num_clients" with
        | inl e => inl e
        | inr nc =>
            match py_getitem result "num_users" with
            | inl e => inl e
            | inr nu =>
                inr (VDict (<["num_clients" := nc]> (<["num_users" := nu]> ∅)))
            end
        end
    | History _ _ _ _ =>
        match py_get result "publications" (VList []) with
        | inl e => inl e
        | inr ps =>
            match py_get result "offset" (VInt 0) with
            | inl e => inl e
            | inr o =>
                match py_get result "epoch" (VStr "") with
                | inl e => inl e
                | inr ep =>
                    inr (VDict (<["publications" := ps]>
                                 (<["offset" := o]> (<["epoch" := ep]> ∅))))
                end
            end
        end
    end.
Proof.
  intros Hp Hs.
  destruct op; cbn [call wire_name payload_of] in *;
    unfold publish, broadcast, subscribe, unsubscribe, disconnect, presence,
      presence_stats, history, history_remove, channels, info, bind, lift, ret;
    rewrite Hp, Hs; cbn [fst]; try reflexivity.
  - destruct (py_getitem result "num_clients"); [reflexivity|].
    destruct (py_getitem result "num_users"); reflexivity.
  - destruct (py_get result "publications" (VList [])); [reflexivity|].
    destruct (py_get result "offset" (VInt 0)); [reflexivity|].
    destruct (py_get result "epoch" (VStr "")); reflexivity.
Qed.

(** X5. On a 200 response whose envelope has neither ["error"] nor
    ["result"], the methods work on the empty dict: [history] returns its
    three defaults, [publish], [broadcast] and [info] return [{}], the four
    methods without a result return [None], and [presence],
    [presence_stats] and [channels] raise [KeyError] on the key they read
    first. *)
Theorem empty_envelope_results self op payload tr resp d :
  payload_of op = inr payload ->
  network tr (request_of self (wire_name op) payload) = inr resp ->
  status_code resp = 200 ->
  json_loads (content resp) = Some (VDict d) ->
  d !! "error" = None ->
  d !! "result" = None ->
  fst (call self op tr) =
    match op with
    | History _ _ _ _ =>
        inr (VDict (<["publications" := VList []]>
                     (<["offset" := VInt 0]> (<["epoch" := VStr ""]> ∅))))
    | Publish _ _ _ | Broadcast _ _ _ | Info => inr (VDict ∅)
    | Subscribe _ _ _ | Unsubscribe _ _ _ | Disconnect _ _
    | HistoryRemove _ => inr VNone
    | Presence _ => inl (KeyError "presence")
    | PresenceStats _ => inl (KeyError "num_clients")
    | Channels _ => inl (KeyError "channels")
    end.
Proof.
  intros Hp Hnet Hst Hjs Herr Hres.
  pose proof (_send_one_result _ _ _ _ _ _ Hnet Hst Hjs Herr) as Hs.
  rewrite Hres in Hs. cbn [default from_option] in Hs.
  rewrite (call_returns _ _ _ _ _ _ Hp Hs).
  destruct op; cbn; rewrite ?lookup_empty; reflexivity.
Qed.

(** X6. The default [{}] stands in for a missing ["result"] only: a
    ["result"] that is there and is not an object (null, a list, a number)
    is handed on as it is. [publish], [broadcast] and [info] return it, the
    four methods without a result still return [None], [history] raises
    [AttributeError] and [presence], [presence_stats] and [channels] raise
    [TypeError]. *)
Theorem result_not_an_object self op payload tr resp d v :
  payload_of op = inr payload ->
  network tr (request_of self (wire_name op) payload) = inr resp ->
  status_code resp = 200 ->
  json_loads (content resp) = Some (VDict d) ->
  d !! "error" = None ->
  d !! "result" = Some v ->
  (forall r, v ≠ VDict r) ->
  match op with
  | Publish _ _ _ | Broadcast _ _ _ | Info => fst (call self op tr) = inr v
  | Subscribe _ _ _ | Unsubscribe _ _ _ | Disconnect _ _
  | HistoryRemove _ => fst (call self op tr) = inr VNone
  | History _ _ _ _ =>
      exists msg, fst (call self op tr) = inl (AttributeError msg)
  | Presence _ | PresenceStats _ | Channels _ =>
      exists msg, fst (call self op tr) = inl (TypeError msg)
  end.
Proof.
  intros Hp Hnet Hst Hjs Herr Hres Hv.
  pose proof (_send_one_result _ _ _ _ _ _ Hnet Hst Hjs Herr) as Hs.
  rewrite Hres in Hs. cbn [default from_option id] in Hs.
  rewrite (call_returns _ _ _ _ _ _ Hp Hs).
  destruct op; try reflexivity;
    destruct v; cbn; try (eexists; reflexivity); by destruct (Hv d0).
Qed.

(** X7. A client built on a session of the caller's holds that very
    session object and writes into it: [Authorization] becomes its own key,
    whatever the session had under that name in any spelling, the timeout
    of the session becomes that of the client, every header under another
    name stays, and no other session changes. Every typed method of the
    client then posts a request that carries each of those other headers. *)
Theorem custom_session_headers_kept address api_key timeout0 r s w :
  sessions w !! r = Some s ->
  exists s',
    __init__ address api_key timeout0 (Some r) w =
      (inr (mkInstance address (default "" api_key)
              (default (VInt 1) timeout0) r),
       mkWorld (<[r := s']> (sessions w)) (log w))
    ∧ session_headers s' !! "Authorization"
      = Some ("apikey " +:+ default "" api_key)
    ∧ (forall h, h ≠ "Authorization" -> lower h = "authorization" ->
         session_headers s' !! h = None)
    ∧ (forall h, lower h ≠ "authorization" ->
         session_headers s' !! h = session_headers s !! h)
    ∧ session_timeout s' = default (VInt 1) timeout0
    ∧ (forall op payload,
         payload_of op = inr payload ->
         exists req rest,
           log (snd (invoke
                       (mkInstance address (default "" api_key)
                          (default (VInt 1) timeout0) r) op
                       (mkWorld (<[r := s']> (sessions w)) (log w))))
           = log w ++ Post req :: rest
           ∧ (forall r', Post r' ∉ rest)
           ∧ (forall h v, lower h ≠ "authorization" ->
                session_headers s !! h = Some v -> headers req !! h = Some v)).
Proof.
  intros Hs.
  exists (_prepare_session (default "" api_key) (default (VInt 1) timeout0) s).
  destruct (headers_setitem_lookup "Authorization"
              ("apikey " +:+ default "" api_key) (session_headers s))
    as (Hset & Hvariants & Hothers).
  split; [by apply init_shared|].
  split; [exact Hset|]. split; [exact Hvariants|]. split; [exact Hothers|].
  split; [reflexivity|].
  intros op payload Hp.
  erewrite invoke_view; [|unfold view; cbn; by rewrite lookup_insert_eq].
  cbn [snd log].
  destruct (call_posts_first
              (mkClient address (default "" api_key) (default (VInt 1) timeout0)
                 (_prepare_session (default "" api_key)
                    (default (VInt 1) timeout0) s))
              op payload (log w) Hp) as (rest & Htr & Hrest).
  eexists _, rest. split; [exact Htr|]. split; [exact Hrest|].
  intros h v Hh Hv. cbn. rewrite (Hothers h Hh). exact Hv.
Qed.

End WithWorld.

End Core.

(** ** [cent/methods], [cent/types]: the pydantic descriptors *)

Module Methods.

(** The annotation of a field. A model is named, as in the source. *)
Inductive annotation : Type :=
| AStr
| ABool
| AInt
| AAny
| ADict (k v : annotation)
| AList (a : annotation)
| AModel (cls : string)
| AOptional (a : annotation).

(** A field declaration [name: annotation] or [name: annotation = default];
    a field without a default is required. *)
Record field_info : Type := mkField {
  field_name : string;
  field_annotation : annotation;
  field_default : option value;
}.

Definition required (name : string) (a : annotation) : field_info :=
  mkField name a None.

(** [name: Optional[a] = None] *)
Definition optional (name : string) (a : annotation) : field_info :=
  mkField name (AOptional a) (Some VNone).

Definition is_required (f : field_info) : bool :=
  match field_default f with None => true | Some _ => false end.

(** A model class: its name, its [__api_method__] when it is a
    [CentMethod], and its fields in the order of declaration. *)
Record model_class : Type := mkClass {
  class_name : string;
  __api_method__ : option string;
  model_fields : list field_info;
}.

Definition field_names (cls : model_class) : list string :=
  map field_name (model_fields cls).

(** A Python object handed to a descriptor: plain data, or the instance of
    a model with the value of each of its fields. *)
Inductive obj : Type :=
| OVal (v : value)
| OModel (cls : model_class) (fields : list (string * obj)).

Definition PyNone : obj := OVal VNone.

(** [o is None] *)
Definition is_none (o : obj) : bool :=
  match o with OVal VNone => true | _ => false end.

(** [SubscribeMethod] *)
Definition SubscribeMethod : model_class :=
  {| class_name := "SubscribeMethod";
     __api_method__ := Some "subscribe";
     model_fields :=
       [ required "user" AStr;
         required "channel" AStr;
         optional "info" AAny;
         optional "b64info" AStr;
         optional "client" AStr;
         optional "session" AStr;
         optional "data" AAny;
         optional "b64data" AStr;
         optional "recover_since" (AModel "StreamPosition");
         optional "override" (AModel "ChannelOptionsOverride") ] |}.

(** [ChannelsMethod] *)
Definition ChannelsMethod : model_class :=
  {| class_name := "ChannelsMethod";
     __api_method__ := Some "channels";
     model_fields := [ optional "pattern" AStr ] |}.

(** [ChannelOptionsOverride] *)
Definition ChannelOptionsOverride : model_class :=
  {| class_name := "ChannelOptionsOverride";
     __api_method__ := None;
     model_fields :=
       [ optional "presence" (AModel "BoolValue");
         optional "join_leave" (AModel "BoolValue");
         optional "force_push_join_leave" (AModel "BoolValue");
         optional "force_positioning" (AModel "BoolValue");
         optional "force_recovery" (AModel "BoolValue") ] |}.

(** Modelled from the spec: [cent/methods/publish.py] is missing. The publish
    descriptor has the fields [Client.publish] passes to its constructor,
    [channel] and [data] required and the other four optional (section 4.1),
    annotated as the parameters of [Client.publish] are. *)
Definition PublishMethod : model_class :=
  {| class_name := "PublishMethod";
     __api_method__ := Some "publish";
     model_fields :=
       [ required "channel" AStr;
         required "data" (ADict AStr AAny);
         optional "skip_history" ABool;
         optional "tags" (ADict AStr AStr);
         optional "b64data" AStr;
         optional "idempotency_key" AStr ] |}.

(** Modelled from the spec: [cent/methods/broadcast.py] is missing. The
    broadcast descriptor has the fields [Client.broadcast] passes to its
    constructor, [channels] and [data] required and the other four optional
    (section 4.1), annotated as the parameters of [Client.broadcast] are. *)
Definition BroadcastMethod : model_class :=
  {| class_name := "BroadcastMethod";
     __api_method__ := Some "broadcast";
     model_fields :=
       [ required "channels" (AList AStr);
         required "data" (ADict AStr AAny);
         optional "skip_history" ABool;
         optional "tags" (ADict AStr AStr);
         optional "b64data" AStr;
         optional "idempotency_key" AStr ] |}.

(** [model.model_dump(exclude_none=...)]: the dict of the fields of a model,
    nested models dumped in turn; with [exclude_none] a field whose value is
    [None] is left out, at every level. Plain data is dumped as it is. *)
Fixpoint model_dump (exclude_none : bool) (o : obj) : value :=
  match o with
  | OVal v => v
  | OModel _ fields =>
      VDict (list_to_map
        ((fix dump_fields (l : list (string * obj)) : list (string * value) :=
            match l with
            | [] => []
            | (k, x) :: l =>
                if exclude_none && is_none x then dump_fields l
                else (k, model_dump exclude_none x) :: dump_fields l
            end) fields))
  end.

(** The fields that [model_dump] keeps, in order. *)
Fixpoint dump_fields (exclude_none : bool) (l : list (string * obj))
    : list (string * value) :=
  match l with
  | [] => []
  | (k, x) :: l =>
      if exclude_none && is_none x then dump_fields exclude_none l
      else (k, model_dump exclude_none x) :: dump_fields exclude_none l
  end.

(** The JSON body sent for a descriptor: [method.model_dump(...)], a dict
    when [method] is a model. *)
Definition json_data (exclude_none : bool) (o : obj) : exn + gmap string value :=
  match o with
  | OModel _ fields => inr (list_to_map (dump_fields exclude_none fields))
  | OVal v =>
      inl (AttributeError
             ("'" +:+ type_name v +:+ "' object has no attribute 'model_dump'"))
  end.

Section Pydantic.

(** The validation of one value against an annotation, by pydantic: the
    validated value, or [None] when the value is rejected. *)
Variable validate : annotation -> obj -> option obj.

(** The fields of a new instance built from keyword arguments: every
    declared field is looked up in [kwargs] and validated, or takes its
    default; a required field that is absent and a value that is rejected
    are both errors. Keyword arguments that name no field are ignored. The
    result is the list of the fields in error and the values of the
    others. *)
Fixpoint validate_fields (fs : list field_info) (kwargs : gmap string obj)
    : list string * list (string * obj) :=
  match fs with
  | [] => ([], [])
  | f :: fs =>
      let '(errors, values) := validate_fields fs kwargs in
      match kwargs !! field_name f with
      | Some o =>
          match validate (field_annotation f) o with
          | Some o' => (errors, (field_name f, o') :: values)
          | None => (field_name f :: errors, values)
          end
      | None =>
          match field_default f with
          | Some v => (errors, (field_name f, OVal v) :: values)
          | None => (field_name f :: errors, values)
          end
      end
  end.

(** The constructor of [cls], called with keyword arguments. *)
Definition construct (cls : model_class) (kwargs : gmap string obj) : exn + obj :=
  match validate_fields (model_fields cls) kwargs with
  | ([], values) => inr (OModel cls values)
  | (errors, _) => inl (ValidationError errors)
  end.

End Pydantic.

(** *** Dumping *)

Lemma model_dump_model en cls fields :
  model_dump en (OModel cls fields) = VDict (list_to_map (dump_fields en fields)).
Proof.
  cbn [model_dump]. do 2 f_equal.
  induction fields as [|[k x] l IH]; [reflexivity|].
  cbn [dump_fields]. destruct (en && is_none x); rewrite IH; reflexivity.
Qed.

(** A value that is not [None] is not dumped as [None]. *)
Lemma model_dump_not_none en x :
  is_none x = false -> model_dump en x ≠ VNone.
Proof.
  destruct x as [v|cls l]; [|by rewrite model_dump_model].
  destruct v; cbn; intros; congruence.
Qed.

(** The keys kept by the dump are keys of the model. *)
Lemma dump_fields_keys en l k :
  k ∈ (dump_fields en l).*1 -> k ∈ l.*1.
Proof.
  induction l as [|[k' x] l IH]; cbn; [done|].
  destruct (en && is_none x); cbn; rewrite ?elem_of_cons; intuition.
Qed.

Lemma dump_fields_NoDup en l :
  NoDup l.*1 -> NoDup (dump_fields en l).*1.
Proof.
  induction l as [|[k x] l IH]; cbn; [done|].
  rewrite NoDup_cons. intros [Hk Hl].
  destruct (en && is_none x); cbn; [by apply IH|].
  apply NoDup_cons. split; [|by apply IH].
  intros Hin. apply Hk. by eapply dump_fields_keys.
Qed.

(** The dump of a model with distinct field names, key by key. *)
Lemma dump_fields_lookup en l k :
  NoDup l.*1 ->
  (list_to_map (dump_fields en l) : gmap string value) !! k =
    match (list_to_map l : gmap string obj) !! k with
    | Some x => if en && is_none x then None else Some (model_dump en x)
    | None => None
    end.
Proof.
  induction l as [|[k' x] l IH]; cbn [dump_fields list_to_map foldr fmap list_fmap];
    [by rewrite !lookup_empty|].
  intros Hnd. apply NoDup_cons in Hnd as [Hk Hl]. cbn in Hk.
  destruct (decide (k' = k)) as [->|Hne].
  - cbn. rewrite lookup_insert_eq.
    destruct (en && is_none x) eqn:E.
    + rewrite IH by done.
      rewrite (not_elem_of_list_to_map_1 l k) by done. reflexivity.
    + cbn. by rewrite lookup_insert_eq.
  - cbn. rewrite lookup_insert_ne by done.
    destruct (en && is_none x); cbn; rewrite ?lookup_insert_ne by done;
      by apply IH.
Qed.

(** With [exclude_none] no key of the dump holds [None]. *)
Lemma dump_fields_no_null l k :
  NoDup l.*1 ->
  (list_to_map (dump_fields true l) : gmap string value) !! k ≠ Some VNone.
Proof.
  intros Hnd. rewrite dump_fields_lookup by done.
  destruct (list_to_map l !! k) as [x|]; [|done].
  cbn. destruct (is_none x) eqn:E; [done|].
  intros [= Hx]. by apply (model_dump_not_none true x).
Qed.

(** A model whose fields are all [None] dumps to no field at all. *)
Lemma dump_fields_all_none l :
  Forall (fun kx => is_none kx.2 = true) l -> dump_fields true l = [].
Proof.
  induction 1 as [|[k x] l Hx _ IH]; [reflexivity|].
  cbn in *. by rewrite Hx.
Qed.

(** X8. A field that holds a model is never left out of the body: it is
    dumped as an object, with [exclude_none] applied inside, and as the
    empty object when every field of the nested model is [None]. Only a
    field that is [None] itself is left out. *)
Theorem nested_model_is_dumped cls fields k c fs body :
  NoDup fields.*1 ->
  (k, OModel c fs) ∈ fields ->
  json_data true (OModel cls fields) = inr body ->
  body !! k = Some (VDict (list_to_map (dump_fields true fs)))
  ∧ (Forall (fun kx => is_none kx.2 = true) fs -> body !! k = Some (VDict ∅)).
Proof.
  intros Hnd Hin [= <-].
  assert (Hlook : (list_to_map (dump_fields true fields) : gmap string value) !! k
                  = Some (VDict (list_to_map (dump_fields true fs)))).
  { rewrite dump_fields_lookup by done.
    rewrite (elem_of_list_to_map_1 _ _ _ Hnd Hin). cbn [andb is_none].
    by rewrite model_dump_model. }
  split; [exact Hlook|].
  intros Hall. rewrite Hlook, (dump_fields_all_none _ Hall). reflexivity.
Qed.


(** *** Construction *)

Section PydanticFacts.

Variable validate : annotation -> obj -> option obj.

(** The value a field takes in a new instance, when it takes one. *)
Definition field_value (kwargs : gmap string obj) (f : field_info) : option obj :=
  match kwargs !! field_name f with
  | Some o => validate (field_annotation f) o
  | None => OVal <$> field_default f
  end.

Lemma validate_fields_errors fs kwargs f :
  f ∈ fs -> field_value kwargs f = None ->
  field_name f ∈ (validate_fields validate fs kwargs).1.
Proof.
  unfold field_value.
  induction fs as [|g fs IH]; intros Hin Hf; [inversion Hin|].
  cbn [validate_fields].
  destruct (validate_fields validate fs kwargs) as [errors values] eqn:E.
  apply elem_of_cons in Hin as [->|Hin].
  - destruct (kwargs !! field_name g) as [o|].
    + rewrite Hf. cbn. apply elem_of_cons. by left.
    + destruct (field_default g); [discriminate|]. cbn. apply elem_of_cons. by left.
  - specialize (IH Hin Hf). cbn in IH.
    destruct (kwargs !! field_name g) as [o|];
      [destruct (validate (field_annotation g) o)|destruct (field_default g)];
      cbn; rewrite ?elem_of_cons; auto.
Qed.

Lemma validate_fields_values fs kwargs values :
  validate_fields validate fs kwargs = ([], values) ->
  Forall2 (fun f kv => kv.1 = field_name f ∧ field_value kwargs f = Some kv.2)
    fs values.
Proof.
  unfold field_value.
  revert values. induction fs as [|g fs IH]; intros values; cbn [validate_fields].
  - intros [= <-]. constructor.
  - destruct (validate_fields validate fs kwargs) as [errors vs] eqn:E.
    destruct (kwargs !! field_name g) as [o|] eqn:Hk.
    + destruct (validate (field_annotation g) o) as [o'|] eqn:Hv; [|discriminate].
      intros [= -> <-]. constructor; [|by apply IH].
      cbn. by rewrite Hk.
    + destruct (field_default g) as [v|] eqn:Hd; [|discriminate].
      intros [= -> <-]. constructor; [|by apply IH].
      cbn. by rewrite Hk, Hd.
Qed.

(** The instance holds, under each field name, the value of that field. *)
Lemma construct_lookup cls kwargs cls' values f :
  NoDup (field_names cls) ->
  construct validate cls kwargs = inr (OModel cls' values) ->
  f ∈ model_fields cls ->
  values.*1 = field_names cls
  ∧ exists x, field_value kwargs f = Some x
      ∧ (list_to_map values : gmap string obj) !! field_name f = Some x.
Proof.
  unfold construct, field_names. intros Hnd Hc Hin.
  destruct (validate_fields validate (model_fields cls) kwargs)
    as [[|e errors] vs] eqn:E; [|discriminate].
  injection Hc as <- <-.
  apply validate_fields_values in E.
  assert (Hkeys : vs.*1 = map field_name (model_fields cls)).
  { clear -E. induction E as [|f' [k x] fs l [Hk _] _ IH]; cbn; [done|].
    cbn in Hk. by rewrite Hk, IH. }
  split; [exact Hkeys|].
  apply list_elem_of_lookup in Hin as [i Hi].
  destruct (Forall2_lookup_l _ _ _ _ _ E Hi) as ([k x] & Hvi & Hk & Hx).
  cbn in Hk, Hx. exists x. split; [exact Hx|].
  apply elem_of_list_to_map_1; [by rewrite Hkeys|].
  rewrite <- Hk. apply list_elem_of_lookup. eauto.
Qed.

(** A required field that is absent makes the construction fail, with the
    field among the errors. *)
Lemma construct_missing cls kwargs f :
  f ∈ model_fields cls -> is_required f = true ->
  kwargs !! field_name f = None ->
  exists errors,
    construct validate cls kwargs = inl (ValidationError errors)
    ∧ field_name f ∈ errors.
Proof.
  intros Hin Hreq Hk. unfold construct.
  assert (Hf : field_value kwargs f = None).
  { unfold field_value. rewrite Hk. unfold is_required in Hreq.
    destruct (field_default f); [discriminate|reflexivity]. }
  pose proof (validate_fields_errors _ kwargs _ Hin Hf) as He.
  destruct (validate_fields validate (model_fields cls) kwargs)
    as [[|e errors] vs]; [inversion He|].
  eexists. split; [reflexivity|exact He].
Qed.

(** The instance has the declared fields, in order. *)
Lemma construct_keys cls kwargs cls' values :
  construct validate cls kwargs = inr (OModel cls' values) ->
  values.*1 = field_names cls.
Proof.
  unfold construct, field_names. intros Hc.
  destruct (validate_fields validate (model_fields cls) kwargs)
    as [[|e errors] vs] eqn:E; [|discriminate].
  injection Hc as <- <-.
  apply validate_fields_values in E.
  induction E as [|f' [k x] fs l [Hk _] _ IH]; cbn; [done|].
  cbn in Hk. by rewrite Hk, IH.
Qed.


(** Without keyword arguments every field takes its default. *)
Lemma validate_fields_no_arguments fs :
  Forall (fun f => field_default f = Some VNone) fs ->
  validate_fields validate fs ∅ = ([], map (fun f => (field_name f, PyNone)) fs).
Proof.
  induction 1 as [|f fs Hf _ IH]; [reflexivity|].
  cbn [validate_fields map]. rewrite IH, lookup_empty, Hf. reflexivity.
Qed.

(** X9. A descriptor whose fields are all declared [Optional[...] = None]
    is built from no argument at all, whatever pydantic validates, and its
    body is the empty object. [ChannelsMethod] and [ChannelOptionsOverride]
    are such classes: [channels] without a pattern posts [{}]. *)
Theorem no_arguments_empty_body :
  (forall cls,
     Forall (fun f => field_default f = Some VNone) (model_fields cls) ->
     exists m, construct validate cls ∅ = inr m ∧ json_data true m = inr ∅)
  ∧ Forall (fun f => field_default f = Some VNone) (model_fields ChannelsMethod)
  ∧ Forall (fun f => field_default f = Some VNone)
      (model_fields ChannelOptionsOverride).
Proof.
  split; [|split; repeat constructor].
  intros cls Hall. unfold construct.
  rewrite (validate_fields_no_arguments _ Hall).
  eexists. split; [reflexivity|]. cbn [json_data].
  rewrite dump_fields_all_none; [reflexivity|].
  clear Hall. induction (model_fields cls); constructor; [reflexivity|assumption].
Qed.

(** X10. A subscribe descriptor built from [user] and [channel] alone, both
    accepted by pydantic, has a body with these two keys and none of the
    eight optional fields. *)
Theorem subscribe_minimal_body user channel user' channel' :
  validate AStr user = Some user' ->
  validate AStr channel = Some channel' ->
  is_none user' = false ->
  is_none channel' = false ->
  exists m,
    construct validate SubscribeMethod
      (<["user" := user]> (<["channel" := channel]> ∅)) = inr m
    ∧ json_data true m =
        inr (<["user" := model_dump true user']>
              (<["channel" := model_dump true channel']> ∅)).
Proof.
  intros Hu Hc Hnu Hnc.
  assert (Hvf : validate_fields validate (model_fields SubscribeMethod)
                  (<["user" := user]> (<["channel" := channel]> ∅)) =
                ([], [ ("user", user'); ("channel", channel');
                       ("info", PyNone); ("b64info", PyNone);
                       ("client", PyNone); ("session", PyNone);
                       ("data", PyNone); ("b64data", PyNone);
                       ("recover_since", PyNone); ("override", PyNone) ])).
  { cbn [validate_fields model_fields SubscribeMethod required optional
         field_name field_annotation field_default].
    assert (Hother : forall k, k ≠ "user" -> k ≠ "channel" ->
              (<["user" := user]> (<["channel" := channel]> ∅) : gmap string obj)
                !! k = None)
      by (intros k ? ?; by rewrite !lookup_insert_ne, lookup_empty).
    assert (Huser : (<["user" := user]> (<["channel" := channel]> ∅)
                       : gmap string obj) !! "user" = Some user)
      by apply lookup_insert_eq.
    assert (Hchannel : (<["user" := user]> (<["channel" := channel]> ∅)
                          : gmap string obj) !! "channel" = Some channel)
      by (by rewrite lookup_insert_ne, lookup_insert_eq).
    rewrite Huser, Hchannel, Hu, Hc.
    rewrite (Hother "info"), (Hother "b64info"), (Hother "client"),
      (Hother "session"), (Hother "data"), (Hother "b64data"),
      (Hother "recover_since"), (Hother "override") by discriminate.
    reflexivity. }
  unfold construct. rewrite Hvf.
  eexists. split; [reflexivity|].
  cbn [json_data dump_fields is_none andb PyNone]. rewrite Hnu, Hnc. reflexivity.
Qed.


End PydanticFacts.

End Methods.

(** ** [cent/client/client.py]: the descriptor based facade *)

Module Sync.

Import Methods.

Record Client : Type := mkClient {
  _base_url : string;
  api_key : string;
}.

(** The message of the [TypeError] raised for missing arguments. *)
Definition missing_message (fname : string) (missing : list string) : string :=
  match missing with
  | [a] => fname +:+ "() missing 1 required positional argument: '" +:+ a +:+ "'"
  | [a; b] =>
      fname +:+ "() missing 2 required positional arguments: '" +:+ a
        +:+ "' and '" +:+ b +:+ "'"
  | _ =>
      fname +:+ "() missing " +:+ pretty (length missing)
        +:+ " required positional arguments"
  end.

(** The binding of the keyword arguments of a call to the parameters of a
    function: a keyword that names no parameter and a parameter without a
    default that is not passed both raise [TypeError]; a parameter with a
    default that is not passed takes it (every default here is [None]).
    Arguments passed by position bind to the same names, in order. *)
Definition bind_arguments (fname : string) (required optional : list string)
    (kwargs : gmap string obj) : exn + gmap string obj :=
  if negb (bool_decide (dom kwargs ⊆ list_to_set (required ++ optional)))
  then inl (TypeError (fname +:+ "() got an unexpected keyword argument"))
  else
    match filter (fun p => kwargs !! p = None) required with
    | [] =>
        inr (foldr (fun p args => <[p := default PyNone (kwargs !! p)]> args)
               kwargs optional)
    | missing => inl (TypeError (missing_message fname missing))
    end.

Section WithSession.

(** The state of the world the session acts on, and what a call returns. *)
Variable W : Type.

(** pydantic's validation of one value. *)
Variable validate : annotation -> obj -> option obj.

(** [self.session], a [BaseSyncSession], called with the client, the
    descriptor and the timeout. *)
Variable session : Client -> obj -> obj -> M W obj.

(** [Client.__call__] *)
Definition __call__ (self : Client) (method : obj) (request_timeout : obj)
    : M W obj :=
  session self method request_timeout.

Definition optional_parameters : list string :=
  ["skip_history"; "tags"; "b64data"; "idempotency_key"; "request_timeout"].

(** [Client.publish] *)
Definition publish (self : Client) (kwargs : gmap string obj) : M W obj :=
  args <- lift (bind_arguments "Client.publish" ["channel"; "data"]
                  optional_parameters kwargs) ;;
  call <- lift (construct validate PublishMethod
                  (delete "request_timeout" args)) ;;
  __call__ self call (default PyNone (args !! "request_timeout")).

(** [Client.broadcast] *)
Definition broadcast (self : Client) (kwargs : gmap string obj) : M W obj :=
  args <- lift (bind_arguments "Client.broadcast" ["channels"; "data"]
                  optional_parameters kwargs) ;;
  call <- lift (construct validate BroadcastMethod
                  (delete "request_timeout" args)) ;;
  __call__ self call (default PyNone (args !! "request_timeout")).

(** The typed methods of the facade and the parameters each requires. *)
Inductive typed_method : Type := PublishCall | BroadcastCall.

Definition run (m : typed_method) : Client -> gmap string obj -> M W obj :=
  match m with PublishCall => publish | BroadcastCall => broadcast end.

Definition required_parameters (m : typed_method) : list string :=
  match m with
  | PublishCall => ["channel"; "data"]
  | BroadcastCall => ["channels"; "data"]
  end.

Definition descriptor (m : typed_method) : model_class :=
  match m with
  | PublishCall => PublishMethod
  | BroadcastCall => BroadcastMethod
  end.

(** *** Missing arguments *)

(** A call that lacks a required parameter is refused when its arguments
    are bound. *)
Lemma bind_arguments_missing fname required optional kwargs p :
  p ∈ required -> kwargs !! p = None ->
  exists msg, bind_arguments fname required optional kwargs = inl (TypeError msg).
Proof.
  intros Hin Hk. unfold bind_arguments.
  destruct (negb _); [eauto|].
  destruct (filter (fun p => kwargs !! p = None) required) as [|q l] eqn:E; [|eauto].
  assert (Hp : p ∈ filter (fun p => kwargs !! p = None) required)
    by (apply list_elem_of_filter; done).
  rewrite E in Hp. inversion Hp.
Qed.

(** C5. A typed method called without one of its required parameters raises
    [TypeError] and leaves the world as it was, whatever the session is: the
    session is never called. So does a call whose descriptor is refused by
    its constructor, which raises pydantic's [ValidationError] and stops
    there; and the constructor of every descriptor refuses keyword arguments
    that lack a required field, naming the field. *)
Theorem missing_required_is_local m self kwargs w p :
  p ∈ required_parameters m ->
  kwargs !! p = None ->
  (exists msg, run m self kwargs w = (inl (TypeError msg), w))
  ∧ (forall kwargs' args e,
       bind_arguments
         (match m with
          | PublishCall => "Client.publish"
          | BroadcastCall => "Client.broadcast"
          end) (required_parameters m) optional_parameters kwargs' = inr args ->
       construct validate (descriptor m) (delete "request_timeout" args) = inl e ->
       run m self kwargs' w = (inl e, w))
  ∧ (forall cls f kw,
       f ∈ model_fields cls -> is_required f = true ->
       kw !! field_name f = None ->
       exists errors,
         construct validate cls kw = inl (ValidationError errors)
         ∧ field_name f ∈ errors).
Proof.
  intros Hin Hk. repeat split.
  - destruct m; cbn [run required_parameters] in *; unfold publish, broadcast, bind, lift;
      match goal with
      | |- context [bind_arguments ?f ?r ?o ?k] =>
          destruct (bind_arguments_missing f r o k p Hin Hk) as [msg ->]
      end; eauto.
  - intros kwargs' args e Hb Hc.
    destruct m; cbn [run required_parameters descriptor] in *;
      unfold publish, broadcast, bind, lift; rewrite Hb, Hc; reflexivity.
  - intros cls f kw. apply construct_missing.
Qed.


(** *** Calls that reach the session *)

(** The name a typed method bears in the messages of the interpreter. *)
Definition qualified_name (m : typed_method) : string :=
  match m with
  | PublishCall => "Client.publish"
  | BroadcastCall => "Client.broadcast"
  end.

(** The parameters of a call once bound: those passed, and [None] for every
    optional parameter that was not. *)
Definition bound (kwargs : gmap string obj) : gmap string obj :=
  foldr (fun p args => <[p := default PyNone (kwargs !! p)]> args)
    kwargs optional_parameters.

Lemma foldr_defaults_lookup (source : gmap string obj) (optional : list string)
    (base : gmap string obj) (k : string) :
  foldr (fun p args => <[p := default PyNone (source !! p)]> args) base optional
    !! k =
  if decide (k ∈ optional) then Some (default PyNone (source !! k))
  else base !! k.
Proof.
  induction optional as [|q l IH]; cbn [foldr].
  - rewrite decide_False; [reflexivity|]. intros Hin. inversion Hin.
  - destruct (decide (q = k)) as [->|Hne].
    + rewrite lookup_insert_eq.
      rewrite decide_True by (apply elem_of_cons; by left). reflexivity.
    + rewrite lookup_insert_ne by done. rewrite IH.
      destruct (decide (k ∈ l)) as [Hl|Hl].
      * rewrite decide_True by (apply elem_of_cons; by right). reflexivity.
      * rewrite decide_False; [reflexivity|].
        intros Hin. apply elem_of_cons in Hin as [->|Hin]; contradiction.
Qed.

Lemma filter_missing_nil (kwargs : gmap string obj) required :
  (forall p, p ∈ required -> is_Some (kwargs !! p)) ->
  filter (fun p => kwargs !! p = None) required = [].
Proof.
  induction required as [|q l IH]; intros Hall; [reflexivity|].
  rewrite filter_cons_False.
  - apply IH. intros p Hp. apply Hall, elem_of_cons. by right.
  - destruct (Hall q) as [x Hx]; [apply elem_of_cons; by left|]. congruence.
Qed.

(** A call with known keywords only and every required parameter is bound. *)
Lemma bind_arguments_bound fname required kwargs :
  dom kwargs ⊆ list_to_set (required ++ optional_parameters) ->
  (forall p, p ∈ required -> is_Some (kwargs !! p)) ->
  bind_arguments fname required optional_parameters kwargs = inr (bound kwargs).
Proof.
  intros Hdom Hreq. unfold bind_arguments.
  rewrite bool_decide_eq_true_2 by exact Hdom. cbn [negb].
  by rewrite (filter_missing_nil _ _ Hreq).
Qed.

(** X11. A typed method called with known keywords and its required
    parameters builds its descriptor from its six fields, each passed
    explicitly ([None] when the caller left it out) and [request_timeout]
    held back; when the descriptor is accepted the session is called once,
    with it and with the [request_timeout] of the caller ([None] when not
    given), and the method ends as the session does. *)
Theorem typed_method_calls_session m self kwargs w call :
  dom kwargs ⊆ list_to_set (required_parameters m ++ optional_parameters) ->
  (forall p, p ∈ required_parameters m -> is_Some (kwargs !! p)) ->
  construct validate (descriptor m) (delete "request_timeout" (bound kwargs))
    = inr call ->
  run m self kwargs w =
    session self call (default PyNone (kwargs !! "request_timeout")) w
  ∧ delete "request_timeout" (bound kwargs) !! "request_timeout" = None
  ∧ (forall f, f ∈ model_fields (descriptor m) ->
       is_Some (delete "request_timeout" (bound kwargs) !! field_name f))
  ∧ (forall p, p ∈ optional_parameters -> p ≠ "request_timeout" ->
       delete "request_timeout" (bound kwargs) !! p
       = Some (default PyNone (kwargs !! p))).
Proof.
  intros Hdom Hreq Hc.
  pose proof (bind_arguments_bound (qualified_name m) _ _ Hdom Hreq) as Hb.
  assert (Hrt : bound kwargs !! "request_timeout"
                = Some (default PyNone (kwargs !! "request_timeout"))).
  { unfold bound. rewrite foldr_defaults_lookup.
    rewrite decide_True; [reflexivity|]. unfold optional_parameters.
    repeat (apply elem_of_cons; first [by left|right]). }
  assert (Hopt : forall p, p ∈ optional_parameters -> p ≠ "request_timeout" ->
            delete "request_timeout" (bound kwargs) !! p
            = Some (default PyNone (kwargs !! p))).
  { intros p Hp Hne. rewrite lookup_delete_ne by done.
    unfold bound. rewrite foldr_defaults_lookup. by rewrite decide_True. }
  split; [|split; [apply lookup_delete_eq|split; [|exact Hopt]]].
  - destruct m; cbn [run qualified_name required_parameters descriptor] in *;
      unfold publish, broadcast, bind, lift, __call__;
      rewrite Hb, Hc, Hrt; reflexivity.
  - intros f Hf.
    assert (Hcases : field_name f ∈ required_parameters m
                     ∨ (field_name f ∈ optional_parameters
                        ∧ field_name f ≠ "request_timeout")).
    { destruct m; cbn in Hf |- *;
        repeat (apply elem_of_cons in Hf as [->|Hf];
                [cbn; first
                   [ left;
                     solve [repeat (apply elem_of_cons; first [by left|right])]
                   | right; split; [|discriminate];
                     unfold optional_parameters;
                     solve [repeat (apply elem_of_cons; first [by left|right])] ]|]);
        inversion Hf. }
    destruct Hcases as [Hr|[Ho Hne]].
    + rewrite lookup_delete_ne.
      * unfold bound. rewrite foldr_defaults_lookup.
        case_decide; [eauto|]. by apply Hreq.
      * intros Heq. rewrite <- Heq in Hr. destruct m; cbn in Hr;
          repeat (apply elem_of_cons in Hr as [Hr|Hr]; [discriminate|]);
          inversion Hr.
    + rewrite (Hopt _ Ho Hne). eauto.
Qed.


(** Passing [None] for an optional parameter binds as not passing it. *)
Lemma bind_arguments_none fname required kwargs p :
  p ∈ optional_parameters -> p ∉ required -> kwargs !! p = None ->
  bind_arguments fname required optional_parameters (<[p := PyNone]> kwargs)
  = bind_arguments fname required optional_parameters kwargs.
Proof.
  intros Hopt Hnreq Hk. unfold bind_arguments.
  assert (Hdom : bool_decide (dom (<[p := PyNone]> kwargs)
                                ⊆ list_to_set (required ++ optional_parameters))
                 = bool_decide (dom kwargs
                                  ⊆@{gset string} list_to_set (required ++ optional_parameters))).
  { apply bool_decide_ext. rewrite dom_insert_L.
    assert (p ∈@{gset string} list_to_set (required ++ optional_parameters))
      by (apply elem_of_list_to_set, elem_of_app; by right).
    split; intros Hsub x Hx.
    - apply Hsub, elem_of_union. by right.
    - apply elem_of_union in Hx as [Hx|Hx]; [|by apply Hsub].
      apply elem_of_singleton in Hx. by subst x. }
  assert (Hfilter : filter (fun q => <[p := PyNone]> kwargs !! q = None) required
                    = filter (fun q => kwargs !! q = None) required).
  { clear Hdom. induction required as [|q l IH]; [reflexivity|].
    assert (q ≠ p) by (intros ->; apply Hnreq, elem_of_cons; by left).
    assert (p ∉ l) by (intros ?; apply Hnreq, elem_of_cons; by right).
    rewrite !filter_cons, lookup_insert_ne by done.
    rewrite IH by done. reflexivity. }
  rewrite Hdom, Hfilter. clear Hdom Hfilter.
  destruct (bool_decide (dom kwargs ⊆ _)); [|reflexivity]. cbn [negb].
  destruct (filter (fun q => kwargs !! q = None) required); [|reflexivity].
  f_equal. apply map_eq. intros k. rewrite !foldr_defaults_lookup.
  destruct (decide (k ∈ optional_parameters)) as [Hin|Hin].
  - destruct (decide (k = p)) as [->|Hne].
    + rewrite lookup_insert_eq, Hk. reflexivity.
    + by rewrite lookup_insert_ne.
  - rewrite lookup_insert_ne; [reflexivity|]. by intros ->.
Qed.

(** X12. For the typed methods an optional parameter passed as [None] is an
    optional parameter not passed: the two calls run alike, on every session
    and in every state. *)
Theorem optional_none_is_omitted m self kwargs w p :
  p ∈ optional_parameters ->
  kwargs !! p = None ->
  run m self (<[p := PyNone]> kwargs) w = run m self kwargs w.
Proof.
  intros Hopt Hk.
  assert (Hnreq : p ∉ required_parameters m).
  { unfold optional_parameters in Hopt.
    repeat (apply elem_of_cons in Hopt as [->|Hopt];
            [destruct m; cbn; intros Hin;
             repeat (apply elem_of_cons in Hin as [Hin|Hin]; [discriminate|]);
             inversion Hin|]).
    inversion Hopt. }
  destruct m; cbn [run required_parameters] in *; unfold publish, broadcast, bind, lift;
    rewrite (bind_arguments_none _ _ _ _ Hopt Hnreq Hk); reflexivity.
Qed.

(** X13. A typed method called with a keyword that names none of its
    parameters raises [TypeError] and leaves the world as it was: neither
    the descriptor is built nor the session called. *)
Theorem unexpected_keyword_is_local m self kwargs w k :
  k ∉ required_parameters m ->
  k ∉ optional_parameters ->
  is_Some (kwargs !! k) ->
  exists msg, run m self kwargs w = (inl (TypeError msg), w).
Proof.
  intros Hr Ho Hk.
  assert (Hdom : ~ dom kwargs
                   ⊆@{gset string} list_to_set (required_parameters m ++ optional_parameters)).
  { intros Hsub. apply elem_of_dom in Hk. apply Hsub in Hk.
    apply elem_of_list_to_set, elem_of_app in Hk as [?|?]; contradiction. }
  destruct m; cbn [run required_parameters] in *;
    unfold publish, broadcast, bind, lift, bind_arguments;
    rewrite (bool_decide_eq_false_2 _ Hdom); cbn; eauto.
Qed.


End WithSession.

End Sync.

(** ** [cent/client/session]: the aiohttp session *)

Module Async.

Import Methods.

(** [base_async.DEFAULT_TIMEOUT] *)
Definition DEFAULT_TIMEOUT : value := VFloat 60%float.

(** [AsyncClient], as far as the session reads it. *)
Record AsyncClient : Type := mkAsyncClient {
  api_key : string;
}.

(** [aiohttp.ClientSession]: an object with an identity, its default
    headers, and a flag set by [close()]. *)
Record ClientSession : Type := mkClientSession {
  id : nat;
  closed : bool;
  session_headers : gmap string string;
}.

(** [AiohttpSession] *)
Record AiohttpSession : Type := mkAiohttpSession {
  _base_url : string;
  _timeout : value;
  _session : option ClientSession;
}.

(** What [check_response] yields: the envelope of the response. *)
Record envelope : Type := mkEnvelope {
  result : value;
  error : value;
}.

(** The calls that leave the session object, in order. *)
Inductive event : Type :=
| Created (id : nat)
| Closed (id : nat)
| Sleep
| Posted (id : nat) (r : Request).

(** The session object, the number of [ClientSession]s created so far, and
    the trace. *)
Record state : Type := mkState {
  self : AiohttpSession;
  created : nat;
  trace : list event;
}.

Section WithWorld.

(** The server behind aiohttp: from the calls made so far and the request,
    either [session.post] or [resp.text()] raises, or a response arrives. *)
Variable network : list event -> Request -> exn + Response.

(** [aiohttp.http.SERVER_SOFTWARE] and [cent.__meta__.__version__] *)
Variable SERVER_SOFTWARE : string.
Variable __version__ : string.

(** [BaseSession.check_response], of [cent/client/session/base.py]. *)
Variable check_response : AsyncClient -> obj -> Z -> string -> exn + envelope.

(** Modelled from the spec: [BaseSession.__init__] is missing. The session
    is built from the base URL and a default timeout, numeric and
    [DEFAULT_TIMEOUT] when none is given (section 6); [AiohttpSession.__init__]
    then sets [_session] to [None]. *)
Definition __init__ (base_url : string) (timeout : option value) : AiohttpSession :=
  {| _base_url := base_url;
     _timeout := default DEFAULT_TIMEOUT timeout;
     _session := None |}.

Definition set_session (s : option ClientSession) (st : state) : state :=
  {| self := {| _base_url := _base_url (self st);
                _timeout := _timeout (self st);
                _session := s |};
     created := created st;
     trace := trace st |}.

Definition log (e : event) (st : state) : state :=
  {| self := self st; created := created st; trace := trace st ++ [e] |}.

(** [ClientSession(headers=...)]: a new object, open. *)
Definition new_ClientSession (headers : gmap string string) : M state ClientSession :=
  fun st =>
    let s := {| id := created st; closed := false; session_headers := headers |} in
    (inr s, log (Created (id s))
              {| self := self st; created := S (created st); trace := trace st |}).

(** The headers [_create_session] gives a new [ClientSession]. *)
Definition default_headers : gmap string string :=
  <["User-Agent" := SERVER_SOFTWARE +:+ " pycent/" +:+ __version__]>
    (<["Content-Type" := "application/json"]>
      (<["X-Centrifugo-Error-Mode" := "transport"]> ∅)).

(** [AiohttpSession._create_session]; what it returns is the object now
    in [self._session]. *)
Definition _create_session : M state (option ClientSession) :=
  st <- get ;;
  (if match _session (self st) with
      | None => true
      | Some s => closed s
      end
   then s <- new_ClientSession default_headers ;;
        (fun st => (inr tt, set_session (Some s) st))
   else ret tt) ;;;
  st <- get ;;
  ret (_session (self st)).

(** [AiohttpSession.close] *)
Definition close : M state unit :=
  st <- get ;;
  match _session (self st) with
  | Some s =>
      if negb (closed s)
      then (fun st =>
              (inr tt,
               log Sleep
                 (log (Closed (id s))
                    (set_session
                       (Some {| id := id s; closed := true;
                                session_headers := session_headers s |}) st))))
      else ret tt
  | None => ret tt
  end.

(** [session.headers[key] = v], on the object held in [self._session]. *)
Definition set_header (session : option ClientSession) (key v : string)
    : M state unit :=
  match session with
  | Some s =>
      fun st =>
        (inr tt,
         set_session
           (Some {| id := id s; closed := closed s;
                    session_headers := <[key := v]> (session_headers s) |}) st)
  | None => raise (AttributeError "'NoneType' object has no attribute 'headers'")
  end.

(** [session.post(url=..., json=..., timeout=...)] followed by
    [resp.text()]: aiohttp refuses a closed session; otherwise the request
    goes out with the headers the session has by then. *)
Definition post (url : string) (json : gmap string value) (timeout : value)
    : M state Response :=
  st <- get ;;
  match _session (self st) with
  | Some s =>
      if closed s then raise (RuntimeError "Session is closed")
      else
        let req := mkRequest url (session_headers s) json timeout in
        fun st => (network (trace st) req, log (Posted (id s) req) st)
  | None => raise (AttributeError "'NoneType' object has no attribute 'post'")
  end.

(** [method.__api_method__] *)
Definition api_method_of (method : obj) : exn + string :=
  match method with
  | OModel cls _ =>
      match __api_method__ cls with
      | Some name => inr name
      | None =>
          inl (AttributeError
                 ("'" +:+ class_name cls
                    +:+ "' object has no attribute '__api_method__'"))
      end
  | OVal v =>
      inl (AttributeError
             ("'" +:+ type_name v +:+ "' object has no attribute '__api_method__'"))
  end.

(** [AiohttpSession.make_request] *)
Definition make_request (client : AsyncClient) (method : obj) (timeout : value)
    : M state value :=
  session <- _create_session ;;
  set_header session "X-API-Key" (api_key client) ;;;
  json_data <- lift (json_data true method) ;;
  api_method <- lift (api_method_of method) ;;
  st <- get ;;
  let url := _base_url (self st) +:+ "/" +:+ api_method in
  resp <- post url json_data (py_or timeout (_timeout (self st))) ;;
  response <- lift (check_response client method (status_code resp) (content resp)) ;;
  ret (result response).

(** [BaseAsyncSession.__call__] *)
Definition __call__ (client : AsyncClient) (method : obj) (timeout : value)
    : M state value :=
  make_request client method timeout.

(** The request [make_request] builds for a descriptor. *)
Definition request_of (client : AsyncClient) (st : state) (api_method : string)
    (body : gmap string value) (timeout : value) (headers : gmap string string)
    : Request :=
  mkRequest (_base_url (self st) +:+ "/" +:+ api_method)
    (<["X-API-Key" := api_key client]> headers)
    body (py_or timeout (_timeout (self st))).

(** A session is usable when there is one and it is open. *)
Definition open_session (a : AiohttpSession) : option ClientSession :=
  match _session a with
  | Some s => if closed s then None else Some s
  | None => None
  end.

(** *** How a request runs *)

(** The outcome of a request once the response, or the failure, is known. *)
Definition outcome (client : AsyncClient) (method : obj) (r : exn + Response)
    : exn + value :=
  match r with
  | inl e => inl e
  | inr resp =>
      match check_response client method (status_code resp) (content resp) with
      | inl e => inl e
      | inr response => inr (result response)
      end
  end.

Definition with_api_key (client : AsyncClient) (s : ClientSession) : ClientSession :=
  {| id := id s; closed := closed s;
     session_headers := <["X-API-Key" := api_key client]> (session_headers s) |}.

(** No usable session: a new one is created, numbered after those created
    before, and the request goes out on it. *)
Lemma make_request_fresh client cls fields api_method timeout st :
  open_session (self st) = None ->
  __api_method__ cls = Some api_method ->
  let s := with_api_key client (mkClientSession (created st) false default_headers) in
  let req := request_of client st api_method
               (list_to_map (dump_fields true fields)) timeout default_headers in
  make_request client (OModel cls fields) timeout st =
    (outcome client (OModel cls fields)
       (network (trace st ++ [Created (created st)]) req),
     {| self := {| _base_url := _base_url (self st);
                   _timeout := _timeout (self st);
                   _session := Some s |};
        created := S (created st);
        trace := (trace st ++ [Created (created st)])
                   ++ [Posted (created st) req] |}).
Proof.
  intros Hopen Hapi. unfold open_session in Hopen.
  destruct st as [[base tmo sess] n tr]. cbn in *.
  unfold make_request, _create_session, bind, get, ret, lift, new_ClientSession,
    set_header, post, api_method_of, outcome, request_of, with_api_key, log,
    set_session, default_headers.
  destruct sess as [[i [|] h]|]; cbn in *; try discriminate;
    rewrite Hapi; cbn;
    match goal with |- context [network ?t ?r] => destruct (network t r) as [e|resp] end;
    cbn; try reflexivity;
    destruct (check_response _ _ _ _); reflexivity.
Qed.

(** An open session: the request goes out on it and no session is created. *)
Lemma make_request_reuse client cls fields api_method timeout st s0 :
  open_session (self st) = Some s0 ->
  __api_method__ cls = Some api_method ->
  let s := with_api_key client s0 in
  let req := request_of client st api_method
               (list_to_map (dump_fields true fields)) timeout (session_headers s0) in
  make_request client (OModel cls fields) timeout st =
    (outcome client (OModel cls fields) (network (trace st) req),
     {| self := {| _base_url := _base_url (self st);
                   _timeout := _timeout (self st);
                   _session := Some s |};
        created := created st;
        trace := trace st ++ [Posted (id s0) req] |}).
Proof.
  intros Hopen Hapi. unfold open_session in Hopen.
  destruct st as [[base tmo sess] n tr]. cbn in *.
  destruct sess as [[i [|] h]|]; cbn in *; try discriminate.
  injection Hopen as <-.
  unfold make_request, _create_session, bind, get, ret, lift, new_ClientSession,
    set_header, post, api_method_of, outcome, request_of, with_api_key, log,
    set_session. cbn. rewrite Hapi. cbn.
  match goal with |- context [network ?t ?r] => destruct (network t r) as [e|resp] end;
    cbn; try reflexivity.
  destruct (check_response _ _ _ _); reflexivity.
Qed.

(** After [close] the session is not usable, and [close] creates nothing. *)
Lemma close_spec st :
  open_session (self (snd (close st))) = None
  ∧ fst (close st) = inr tt
  ∧ created (snd (close st)) = created st
  ∧ _base_url (self (snd (close st))) = _base_url (self st)
  ∧ _timeout (self (snd (close st))) = _timeout (self st).
Proof.
  destruct st as [[base tmo sess] n tr].
  unfold close, open_session, bind, get, ret, log, set_session. cbn.
  destruct sess as [[i [|] h]|]; cbn; repeat split.
Qed.

(** Whatever [method] is, [make_request] only adds to the trace, and what
    it posts carries the API key of the client, the JSON dump of the
    descriptor and the timeout [timeout or self._timeout]. *)
Lemma make_request_trace client method t st :
  exists evs,
    trace (snd (make_request client method t st)) = trace st ++ evs
    ∧ forall sid req, Posted sid req ∈ evs ->
        headers req !! "X-API-Key" = Some (api_key client)
        ∧ timeout req = py_or t (_timeout (self st))
        ∧ json_data true method = inr (json req).
Proof.
  destruct method as [v|cls fields];
    [|destruct (__api_method__ cls) as [api|] eqn:Hapi].
  - (* not a model: [model_dump] raises *)
    destruct st as [[base tmo sess] n tr].
    unfold make_request, _create_session, bind, get, ret, lift,
      new_ClientSession, set_header, log, set_session. cbn.
    destruct sess as [[i [|] h]|]; cbn;
      [exists [Created n]|exists []|exists [Created n]];
      (split; [by rewrite ?app_nil_r|]); intros sid req Hin;
      repeat (apply elem_of_cons in Hin as [Hin|Hin]; [discriminate|]);
      inversion Hin.
  - destruct (open_session (self st)) as [s0|] eqn:Hopen.
    + rewrite (make_request_reuse _ _ _ _ _ _ _ Hopen Hapi). cbn.
      eexists. split; [reflexivity|]. intros sid req Hin.
      apply list_elem_of_singleton in Hin. injection Hin as _ ->.
      cbn. by rewrite lookup_insert_eq.
    + rewrite (make_request_fresh _ _ _ _ _ _ Hopen Hapi). cbn.
      rewrite <- app_assoc.
      eexists. split; [reflexivity|]. intros sid req Hin.
      apply elem_of_cons in Hin as [Hin|Hin]; [discriminate|].
      apply list_elem_of_singleton in Hin. injection Hin as _ ->.
      cbn. by rewrite lookup_insert_eq.
  - (* a model that is no method: no URL *)
    destruct st as [[base tmo sess] n tr].
    unfold make_request, _create_session, bind, get, ret, lift,
      new_ClientSession, set_header, log, set_session, api_method_of. cbn.
    rewrite Hapi.
    destruct sess as [[i [|] h]|]; cbn;
      [exists [Created n]|exists []|exists [Created n]];
      (split; [by rewrite ?app_nil_r|]); intros sid req Hin;
      repeat (apply elem_of_cons in Hin as [Hin|Hin]; [discriminate|]);
      inversion Hin.
Qed.

(** For a descriptor, one request is posted, last. *)
Lemma make_request_posts client cls fields api_method timeout st :
  __api_method__ cls = Some api_method ->
  exists pre sid hdrs,
    trace (snd (make_request client (OModel cls fields) timeout st)) =
      pre ++ [Posted sid
                (request_of client st api_method
                   (list_to_map (dump_fields true fields)) timeout hdrs)].
Proof.
  intros Hapi. destruct (open_session (self st)) as [s0|] eqn:Hopen.
  - rewrite (make_request_reuse _ _ _ _ _ _ _ Hopen Hapi). cbn. eauto.
  - rewrite (make_request_fresh _ _ _ _ _ _ Hopen Hapi). cbn. eauto.
Qed.

(** *** The body of a request *)

(** pydantic's validation of one value. *)
Variable validate : annotation -> obj -> option obj.

Lemma construct_model cls kwargs m :
  construct validate cls kwargs = inr m ->
  exists values, m = OModel cls values.
Proof.
  unfold construct.
  destruct (validate_fields validate (model_fields cls) kwargs) as [[|e errors] vs];
    [|discriminate].
  intros [= <-]. eauto.
Qed.

(** C2. For every descriptor class, once the descriptor is built from valid
    arguments, the JSON body [make_request] posts has no key for an optional
    field that was not passed or was passed as [None], has the key of every
    field passed with another value ([False] included) with the dump of that
    value, and maps no key to null. Validation by pydantic is only assumed
    to keep [None] as [None] and other values as other values. *)
Theorem request_omits_unset_fields client cls kwargs m api_method t st :
  NoDup (field_names cls) ->
  (forall a o o', validate a o = Some o' -> is_none o' = is_none o) ->
  __api_method__ cls = Some api_method ->
  construct validate cls kwargs = inr m ->
  exists pre sid req,
    trace (snd (make_request client m t st)) = pre ++ [Posted sid req]
    ∧ (forall f, f ∈ model_fields cls -> field_default f = Some VNone ->
         kwargs !! field_name f = None ∨ kwargs !! field_name f = Some PyNone ->
         json req !! field_name f = None)
    ∧ (forall f o, f ∈ model_fields cls ->
         kwargs !! field_name f = Some o -> is_none o = false ->
         exists o', validate (field_annotation f) o = Some o'
           ∧ json req !! field_name f = Some (model_dump true o'))
    ∧ (forall k, json req !! k ≠ Some VNone).
Proof.
  intros Hnd Hval Hapi Hc.
  destruct (construct_model _ _ _ Hc) as [values ->].
  destruct (make_request_posts client cls values api_method t st Hapi)
    as (pre & sid & hdrs & Htr).
  exists pre, sid. eexists. split; [exact Htr|]. cbn [json request_of].
  assert (Hkeys : forall f, f ∈ model_fields cls ->
            NoDup values.*1
            ∧ exists x, field_value validate kwargs f = Some x
                ∧ (list_to_map values : gmap string obj) !! field_name f = Some x).
  { intros f Hin.
    destruct (construct_lookup validate _ _ _ _ f Hnd Hc Hin) as [Hk Hx].
    split; [by rewrite Hk|exact Hx]. }
  repeat split.
  - intros f Hin Hdef Hk.
    destruct (Hkeys f Hin) as (Hnd' & x & Hfv & Hx).
    rewrite dump_fields_lookup, Hx by done. cbn.
    unfold field_value in Hfv.
    destruct Hk as [Hk|Hk]; rewrite Hk in Hfv.
    + rewrite Hdef in Hfv. injection Hfv as <-. reflexivity.
    + apply Hval in Hfv. cbn in Hfv. by rewrite Hfv.
  - intros f o Hin Hk Hno.
    destruct (Hkeys f Hin) as (Hnd' & x & Hfv & Hx).
    unfold field_value in Hfv. rewrite Hk in Hfv.
    exists x. split; [exact Hfv|].
    rewrite dump_fields_lookup, Hx by done. cbn.
    apply Hval in Hfv. by rewrite Hfv, Hno.
  - intros k. apply dump_fields_no_null.
    by rewrite (construct_keys validate _ _ _ _ Hc).
Qed.

(** *** The life of the underlying session *)

(** Sessions are numbered in the order they are created: the one held, if
    any, bears a number below the count. *)
Definition wf (st : state) : Prop :=
  forall s, _session (self st) = Some s -> (id s < created st)%nat.

Lemma wf_init base_url t n tr : wf (mkState (__init__ base_url t) n tr).
Proof. intros s. cbn. discriminate. Qed.

Lemma wf_close st : wf st -> wf (snd (close st)).
Proof.
  destruct st as [[base tmo sess] n tr]. unfold wf, close, bind, get, ret. cbn.
  destruct sess as [[i [|] h]|]; cbn; intros Hwf s [= <-]; by apply (Hwf _ eq_refl).
Qed.

Lemma wf_make_request client cls fields api_method t st :
  __api_method__ cls = Some api_method ->
  wf st -> wf (snd (make_request client (OModel cls fields) t st)).
Proof.
  intros Hapi Hwf. destruct (open_session (self st)) as [s0|] eqn:Hopen.
  - rewrite (make_request_reuse _ _ _ _ _ _ _ Hopen Hapi). cbn.
    intros s [= <-]. cbn. apply Hwf.
    unfold open_session in Hopen. destruct (_session (self st)) as [s1|]; [|done].
    destruct (closed s1); congruence.
  - rewrite (make_request_fresh _ _ _ _ _ _ Hopen Hapi). cbn.
    intros s [= <-]. cbn. lia.
Qed.

(** C10. The session object starts without an HTTP session. A request made
    when there is none, or when the one held is closed (as it is after
    [close]), creates a new one, numbered unlike any before, posts on it and
    ends as the server and [check_response] decide, the new session staying
    open in [_session]. A request made while the session held is open posts
    on that one, creates nothing and leaves it in [_session]. *)
Theorem session_lifecycle client cls fields api_method t st :
  __api_method__ cls = Some api_method ->
  wf st ->
  let method := OModel cls fields in
  let body := list_to_map (dump_fields true fields) in
  (forall base_url tmo, _session (__init__ base_url tmo) = None)
  ∧ open_session (self (snd (close st))) = None
  ∧ (open_session (self st) = None ->
     let req := request_of client st api_method body t default_headers in
     let r := make_request client method t st in
     fst r = outcome client method (network (trace st ++ [Created (created st)]) req)
     ∧ trace (snd r) = trace st ++ [Created (created st); Posted (created st) req]
     ∧ created (snd r) = S (created st)
     ∧ (exists s, open_session (self (snd r)) = Some s ∧ id s = created st)
     ∧ (forall old, _session (self st) = Some old -> id old ≠ created st))
  ∧ (forall s0, open_session (self st) = Some s0 ->
     let req := request_of client st api_method body t (session_headers s0) in
     let r := make_request client method t st in
     fst r = outcome client method (network (trace st) req)
     ∧ trace (snd r) = trace st ++ [Posted (id s0) req]
     ∧ created (snd r) = created st
     ∧ (exists s, open_session (self (snd r)) = Some s ∧ id s = id s0)).
Proof.
  intros Hapi Hwf method body. split; [reflexivity|].
  split; [apply close_spec|]. split.
  - intros Hopen req r. subst r method body req.
    rewrite (make_request_fresh _ _ _ _ _ _ Hopen Hapi). cbn.
    rewrite <- app_assoc. repeat split.
    + unfold open_session. cbn. eauto.
    + intros old Hold. specialize (Hwf _ Hold). lia.
  - intros s0 Hopen req r. subst r method body req.
    rewrite (make_request_reuse _ _ _ _ _ _ _ Hopen Hapi). cbn.
    repeat split. unfold open_session. cbn.
    unfold open_session in Hopen. destruct (_session (self st)) as [s1|]; [|done].
    destruct (closed s1) eqn:Hc; [done|]. injection Hopen as <-.
    rewrite Hc. eauto.
Qed.

(** *** The session object across calls *)

(** [BaseAsyncSession.__aenter__] *)
Definition __aenter__ : M state AiohttpSession :=
  st <- get ;;
  ret (self st).

(** [BaseAsyncSession.__aexit__] *)
Definition __aexit__ : M state unit := close.

(** Whatever [method] is and however the call ends, [make_request] leaves
    in [_session] an open session with the API key of the client on it: the
    one that was open, or a new one. *)
Lemma make_request_session client method t st :
  exists s,
    self (snd (make_request client method t st)) =
      {| _base_url := _base_url (self st);
         _timeout := _timeout (self st);
         _session := Some (with_api_key client s) |}
    ∧ closed s = false
    ∧ ((open_session (self st) = Some s
        ∧ created (snd (make_request client method t st)) = created st)
       ∨ (open_session (self st) = None
          ∧ s = mkClientSession (created st) false default_headers
          ∧ created (snd (make_request client method t st)) = S (created st))).
Proof.
  destruct method as [v|cls fields];
    [|destruct (__api_method__ cls) as [api|] eqn:Hapi].
  - destruct st as [[base tmo sess] n tr].
    unfold make_request, _create_session, bind, get, ret, lift,
      new_ClientSession, set_header, log, set_session, open_session,
      with_api_key. cbn.
    destruct sess as [[i [|] h]|]; cbn;
      [exists (mkClientSession n false default_headers)
      |exists (mkClientSession i false h)
      |exists (mkClientSession n false default_headers)];
      (split; [reflexivity|]); (split; [reflexivity|]);
      first [by left | by right].
  - destruct (open_session (self st)) as [s0|] eqn:Hopen.
    + rewrite (make_request_reuse _ _ _ _ _ _ _ Hopen Hapi). cbn.
      exists s0. split; [reflexivity|]. split; [|by left].
      unfold open_session in Hopen. destruct (_session (self st)) as [s1|]; [|done].
      destruct (closed s1) eqn:Hc; [done|]. by injection Hopen as <-.
    + rewrite (make_request_fresh _ _ _ _ _ _ Hopen Hapi). cbn.
      eexists. split; [reflexivity|]. split; [reflexivity|]. by right.
  - destruct st as [[base tmo sess] n tr].
    unfold make_request, _create_session, bind, get, ret, lift,
      new_ClientSession, set_header, log, set_session, open_session,
      with_api_key, api_method_of. cbn. rewrite Hapi.
    destruct sess as [[i [|] h]|]; cbn;
      [exists (mkClientSession n false default_headers)
      |exists (mkClientSession i false h)
      |exists (mkClientSession n false default_headers)];
      (split; [reflexivity|]); (split; [reflexivity|]);
      first [by left | by right].
Qed.

Lemma open_session_with_api_key client s base tmo :
  closed s = false ->
  open_session (mkAiohttpSession base tmo (Some (with_api_key client s)))
  = Some (with_api_key client s).
Proof. intros Hc. unfold open_session. cbn. by rewrite Hc. Qed.

(** X14. [close] never raises and never creates a session. On an open
    session it logs the closing of that session and the pause that follows
    and leaves the same session, flagged closed, in [_session]; with no
    session or a closed one it does nothing at all; so closing twice is
    closing once. *)
Theorem close_is_idempotent st :
  fst (close st) = inr tt
  ∧ created (snd (close st)) = created st
  ∧ (forall s, open_session (self st) = Some s ->
       trace (snd (close st)) = trace st ++ [Closed (id s); Sleep]
       ∧ _session (self (snd (close st))) =
           Some (mkClientSession (id s) true (session_headers s)))
  ∧ (open_session (self st) = None -> close st = (inr tt, st))
  ∧ close (snd (close st)) = (inr tt, snd (close st)).
Proof.
  destruct st as [[base tmo sess] n tr].
  unfold close, open_session, bind, get, ret, log, set_session. cbn.
  destruct sess as [[i [|] h]|]; cbn;
    (split; [reflexivity|]); (split; [reflexivity|]);
    (split; [intros s Hs;
             first [discriminate
                   |injection Hs as <-;
                    split; [by rewrite <- app_assoc|reflexivity]]|]);
    (split; [intros Hs; first [discriminate|reflexivity]|reflexivity]).
Qed.


(** The session a request is posted on, and the headers it takes from it. *)
Lemma make_request_posted_on client method t st sid req :
  Posted sid req ∈ trace (snd (make_request client method t st)) ->
  Posted sid req ∈ trace st
  ∨ exists s,
      (open_session (self st) = Some s
       ∨ (open_session (self st) = None
          ∧ s = mkClientSession (created st) false default_headers))
      ∧ sid = id s
      ∧ headers req = <["X-API-Key" := api_key client]> (session_headers s).
Proof.
  destruct method as [v|cls fields];
    [|destruct (__api_method__ cls) as [api|] eqn:Hapi].
  - destruct st as [[base tmo sess] n tr].
    unfold make_request, _create_session, bind, get, ret, lift,
      new_ClientSession, set_header, log, set_session. cbn.
    destruct sess as [[i [|] h]|]; cbn; intros Hin; left;
      try (apply elem_of_app in Hin as [Hin|Hin]; [done|];
           apply list_elem_of_singleton in Hin; discriminate); done.
  - destruct (open_session (self st)) as [s0|] eqn:Hopen.
    + rewrite (make_request_reuse _ _ _ _ _ _ _ Hopen Hapi). cbn.
      intros Hin. apply elem_of_app in Hin as [Hin|Hin]; [by left|right].
      apply list_elem_of_singleton in Hin. injection Hin as -> ->.
      exists s0. split; [by left|]. split; reflexivity.
    + rewrite (make_request_fresh _ _ _ _ _ _ Hopen Hapi). cbn.
      intros Hin. apply elem_of_app in Hin as [Hin|Hin].
      * apply elem_of_app in Hin as [Hin|Hin]; [by left|].
        apply list_elem_of_singleton in Hin. discriminate.
      * right. apply list_elem_of_singleton in Hin. injection Hin as -> ->.
        eexists. split; [right; split; reflexivity|]. split; reflexivity.
  - destruct st as [[base tmo sess] n tr].
    unfold make_request, _create_session, bind, get, ret, lift,
      new_ClientSession, set_header, log, set_session, api_method_of. cbn.
    rewrite Hapi.
    destruct sess as [[i [|] h]|]; cbn; intros Hin; left;
      try (apply elem_of_app in Hin as [Hin|Hin]; [done|];
           apply list_elem_of_singleton in Hin; discriminate); done.
Qed.

(** X15. Entering the session as a context manager hands back the session
    object and touches nothing, so no HTTP session is created before the
    first request. Leaving it after a request never raises, creates
    nothing, and closes the very session the request was posted on, so that
    none is left open. *)
Theorem context_manager_closes client cls fields api_method t st :
  __api_method__ cls = Some api_method ->
  __aenter__ st = (inr (self st), st)
  ∧ (let st1 := snd (make_request client (OModel cls fields) t
                       (snd (__aenter__ st))) in
     let st2 := snd (__aexit__ st1) in
     fst (__aexit__ st1) = inr tt
     ∧ open_session (self st2) = None
     ∧ created st2 = created st1
     ∧ exists pre sid req,
         trace st1 = pre ++ [Posted sid req]
         ∧ trace st2 = pre ++ [Posted sid req; Closed sid; Sleep]).
Proof.
  intros Hapi. split; [reflexivity|]. cbn zeta.
  change (snd (__aenter__ st)) with st. unfold __aexit__.
  destruct (close_spec (snd (make_request client (OModel cls fields) t st)))
    as (Hnone & Hret & Hcreated & _).
  split; [exact Hret|]. split; [exact Hnone|]. split; [exact Hcreated|].
  destruct (open_session (self st)) as [s0|] eqn:Hopen.
  - rewrite (make_request_reuse _ _ _ _ _ _ _ Hopen Hapi). cbn.
    unfold close, bind, get, ret, log, set_session. cbn.
    assert (Hc : closed s0 = false).
    { unfold open_session in Hopen. destruct (_session (self st)) as [s1|]; [|done].
      destruct (closed s1) eqn:Hc; [done|]. by injection Hopen as <-. }
    rewrite Hc. cbn. eexists _, _, _. split; [reflexivity|].
    by rewrite <- !app_assoc.
  - rewrite (make_request_fresh _ _ _ _ _ _ Hopen Hapi). cbn.
    unfold close, bind, get, ret, log, set_session. cbn.
    eexists _, _, _. split; [reflexivity|]. by rewrite <- !app_assoc.
Qed.


(** X16. Two requests in a row share one HTTP session, however the first
    one ended (the server may have failed, [check_response] may have
    raised): the second creates nothing and posts on the session the first
    was posted on, with the API key of its own client. *)
Theorem consecutive_requests_share_session
    client1 cls1 fields1 api1 t1 client2 cls2 fields2 api2 t2 st :
  __api_method__ cls1 = Some api1 ->
  __api_method__ cls2 = Some api2 ->
  let st1 := snd (make_request client1 (OModel cls1 fields1) t1 st) in
  let st2 := snd (make_request client2 (OModel cls2 fields2) t2 st1) in
  created st2 = created st1
  ∧ exists pre sid req1 req2,
      trace st1 = pre ++ [Posted sid req1]
      ∧ trace st2 = pre ++ [Posted sid req1; Posted sid req2]
      ∧ headers req2 !! "X-API-Key" = Some (api_key client2).
Proof.
  intros Hapi1 Hapi2 st1 st2.
  assert (Hfirst : exists s pre req1,
            self st1 = {| _base_url := _base_url (self st);
                          _timeout := _timeout (self st);
                          _session := Some (with_api_key client1 s) |}
            ∧ closed s = false
            ∧ trace st1 = pre ++ [Posted (id s) req1]).
  { subst st1. destruct (open_session (self st)) as [s0|] eqn:Hopen.
    - rewrite (make_request_reuse _ _ _ _ _ _ _ Hopen Hapi1). cbn.
      exists s0. eexists _, _. split; [reflexivity|]. split; [|reflexivity].
      unfold open_session in Hopen. destruct (_session (self st)) as [s1|]; [|done].
      destruct (closed s1) eqn:Hc; [done|]. by injection Hopen as <-.
    - rewrite (make_request_fresh _ _ _ _ _ _ Hopen Hapi1). cbn.
      eexists (mkClientSession _ _ _), _, _.
      split; [reflexivity|]. split; reflexivity. }
  destruct Hfirst as (s & pre & req1 & Hself & Hc & Htr).
  assert (Hopen : open_session (self st1) = Some (with_api_key client1 s))
    by (rewrite Hself; by apply open_session_with_api_key).
  subst st2. rewrite (make_request_reuse _ _ _ _ _ _ _ Hopen Hapi2). cbn.
  split; [reflexivity|].
  exists pre, (id s), req1. eexists. split; [exact Htr|].
  split; [by rewrite Htr, <- app_assoc|]. cbn. apply lookup_insert_eq.
Qed.

(** X17. A [method] that is no descriptor (plain data, or a model without
    [__api_method__]) makes [make_request] raise [AttributeError] without
    posting anything; the HTTP session has been created all the same, and
    stays open with the API key of the client on it. *)
Theorem not_a_method_raises client method t st :
  (forall cls fields, method = OModel cls fields -> __api_method__ cls = None) ->
  (exists msg, fst (make_request client method t st) = inl (AttributeError msg))
  ∧ (forall sid req,
       Posted sid req ∈ trace (snd (make_request client method t st)) ->
       Posted sid req ∈ trace st)
  ∧ (exists s,
       open_session (self (snd (make_request client method t st))) = Some s
       ∧ session_headers s !! "X-API-Key" = Some (api_key client)).
Proof.
  intros Hmethod. split; [|split].
  - destruct st as [[base tmo sess] n tr].
    destruct method as [v|cls fields];
      unfold make_request, _create_session, bind, get, ret, lift,
        new_ClientSession, set_header, log, set_session, api_method_of; cbn;
      [|rewrite (Hmethod _ _ eq_refl)];
      destruct sess as [[i [|] h]|]; cbn; eauto.
  - intros sid req.
    destruct st as [[base tmo sess] n tr].
    destruct method as [v|cls fields];
      unfold make_request, _create_session, bind, get, ret, lift,
        new_ClientSession, set_header, log, set_session, api_method_of; cbn;
      [|rewrite (Hmethod _ _ eq_refl)];
      destruct sess as [[i [|] h]|]; cbn; intros Hin; try done;
      (apply elem_of_app in Hin as [Hin|Hin]; [done|]);
      apply list_elem_of_singleton in Hin; discriminate.
  - destruct (make_request_session client method t st) as (s & Hself & Hc & _).
    rewrite Hself. exists (with_api_key client s).
    split; [by apply open_session_with_api_key|]. apply lookup_insert_eq.
Qed.


(** The headers of the session held, apart from the API key, are those
    [_create_session] gave it. *)
Definition has_default_headers (st : state) : Prop :=
  forall s, _session (self st) = Some s ->
  forall k, k ≠ "X-API-Key" -> session_headers s !! k = default_headers !! k.

(** X18. The session object never puts other headers on its HTTP session
    than the three [_create_session] gives it and the API key: this holds
    of a new session object and is kept by [make_request], whatever its
    arguments and its outcome, and by [close]. Hence every request goes out
    with exactly these four headers: the user agent, the JSON content type,
    the transport error mode and the API key of the calling client. *)
Theorem request_headers_exact client method t st :
  has_default_headers st ->
  has_default_headers (snd (make_request client method t st))
  ∧ has_default_headers (snd (close st))
  ∧ (forall base_url tmo n tr,
       has_default_headers (mkState (__init__ base_url tmo) n tr))
  ∧ (forall sid req,
       Posted sid req ∈ trace (snd (make_request client method t st)) ->
       Posted sid req ∈ trace st
       ∨ headers req =
           <["X-API-Key" := api_key client]>
             (<["User-Agent" := SERVER_SOFTWARE +:+ " pycent/" +:+ __version__]>
               (<["Content-Type" := "application/json"]>
                 (<["X-Centrifugo-Error-Mode" := "transport"]> ∅)))).
Proof.
  intros Hinv.
  assert (Hopen : forall s, open_session (self st) = Some s ->
            forall k, k ≠ "X-API-Key" ->
            session_headers s !! k = default_headers !! k).
  { intros s Hs. apply Hinv. unfold open_session in Hs.
    destruct (_session (self st)) as [s1|]; [|done].
    destruct (closed s1); [done|]. by injection Hs as <-. }
  split; [|split; [|split]].
  - destruct (make_request_session client method t st)
      as (s & Hself & _ & [[Hs _]|(_ & -> & _)]);
      unfold has_default_headers;
      rewrite Hself; intros s' [= <-] k Hk; cbn;
      rewrite lookup_insert_ne by done; [by apply Hopen|reflexivity].
  - destruct st as [[base tmo sess] n tr].
    unfold close, bind, get, ret, log, set_session. cbn.
    destruct sess as [[i [|] h]|]; cbn; intros s' [= <-]; cbn;
      apply (Hinv _ eq_refl).
  - intros base_url tmo n tr s. cbn. discriminate.
  - intros sid req Hin.
    destruct (make_request_posted_on _ _ _ _ _ _ Hin)
      as [Hold|(s & Hs & _ & Hh)]; [by left|right].
    rewrite Hh. apply map_eq. intros k.
    destruct (decide (k = "X-API-Key")) as [->|Hk].
    + by rewrite !lookup_insert_eq.
    + rewrite !(lookup_insert_ne _ "X-API-Key") by done.
      destruct Hs as [Hs|[_ ->]]; [by apply Hopen|reflexivity].
Qed.


(** X19. The aiohttp session puts the name of the API method in the URL and
    not in the body: a descriptor of a class with distinct field names, none
    of them [method], is posted to [<base_url>/<__api_method__>], and its
    body has no key ["method"]. The four descriptor classes at hand are such
    classes. *)
Theorem method_name_in_url client cls kwargs m api_method t st :
  NoDup (field_names cls) ->
  "method" ∉ field_names cls ->
  __api_method__ cls = Some api_method ->
  construct validate cls kwargs = inr m ->
  (exists pre sid req,
     trace (snd (make_request client m t st)) = pre ++ [Posted sid req]
     ∧ url req = _base_url (self st) +:+ "/" +:+ api_method
     ∧ json req !! "method" = None)
  ∧ Forall (fun c => NoDup (field_names c) ∧ "method" ∉ field_names c)
      [SubscribeMethod; ChannelsMethod; PublishMethod; BroadcastMethod].
Proof.
  intros Hnd Hno Hapi Hc. split.
  - destruct (construct_model _ _ _ Hc) as [values ->].
    destruct (make_request_posts client cls values api_method t st Hapi)
      as (pre & sid & hdrs & Htr).
    exists pre, sid. eexists. split; [exact Htr|]. split; [reflexivity|].
    cbn [json request_of].
    pose proof (construct_keys validate _ _ _ _ Hc) as Hkeys.
    rewrite dump_fields_lookup by (by rewrite Hkeys).
    rewrite (not_elem_of_list_to_map_1 values "method"); [reflexivity|].
    by rewrite Hkeys.
  - repeat (apply Forall_cons_2;
            [split;
             [apply (bool_decide_unpack (NoDup _)); vm_compute; exact I
             |apply (bool_decide_unpack (_ ∉ _)); vm_compute; exact I]|]).
    apply Forall_nil_2.
Qed.


(** For a descriptor the request is posted last, after what the trace held
    and, when a session had to be created, after its creation. *)
Lemma make_request_posts_last client cls fields api_method t st :
  __api_method__ cls = Some api_method ->
  exists evs sid hdrs,
    trace (snd (make_request client (OModel cls fields) t st)) =
      trace st ++ evs ++
        [Posted sid
           (request_of client st api_method
              (list_to_map (dump_fields true fields)) t hdrs)]
    ∧ (evs = [] ∨ evs = [Created (created st)]).
Proof.
  intros Hapi. destruct (open_session (self st)) as [s0|] eqn:Hopen.
  - rewrite (make_request_reuse _ _ _ _ _ _ _ Hopen Hapi). cbn.
    exists [], (id s0), (session_headers s0). split; [reflexivity|by left].
  - rewrite (make_request_fresh _ _ _ _ _ _ Hopen Hapi). cbn.
    exists [Created (created st)], (created st), default_headers.
    split; [by rewrite <- app_assoc|by right].
Qed.

End WithWorld.

End Async.

(** ** The two clients side by side *)

(** A number of seconds between 1 and 60. *)
Definition in_documented_range (v : value) : bool :=
  match v with
  | VInt z => (1 <=? z) && (z <=? 60)
  | VFloat f => (PrimFloat.leb 1 f && PrimFloat.leb f 60)%float
  | _ => false
  end.

Section Clients.

Context `{!Core.ParamsMixin}.
Variable core_network : list event -> Request -> exn + Response.
Variable json_loads : string -> option value.
Variable httpx_Client : Core.Session.

Variable async_network : list Async.event -> Request -> exn + Response.
Variable SERVER_SOFTWARE : string.
Variable __version__ : string.
Variable check_response :
  Async.AsyncClient -> Methods.obj -> Z -> string -> exn + Async.envelope.

Variable W : Type.
Variable session : Sync.Client -> Methods.obj -> Methods.obj -> M W Methods.obj.

(** C8, as the code has it. The aiohttp session sets [X-API-Key] on its
    HTTP session before every request: a request for a descriptor is posted,
    once, and carries the API key of the client it is called for. The
    blocking client writes [Authorization: apikey <api_key>] into its
    session object once, when it is built, and its typed methods post with
    the headers that object has by then. As long as the object is as the
    client left it, each typed method posts a request, once, that carries
    the key of the client under the one spelling [Authorization]. Once
    another client is built on the same session object, the requests of the
    first carry the key of the other. Calls do not change a session object,
    and building a client changes no session object but its own. *)
Theorem api_key_on_every_request :
  (forall client cls fields api_method t st,
     Methods.__api_method__ cls = Some api_method ->
     exists evs sid req,
       Async.trace (snd (Async.make_request async_network SERVER_SOFTWARE
                           __version__ check_response client
                           (Methods.OModel cls fields) t st))
       = Async.trace st ++ evs ++ [Async.Posted sid req]
       ∧ (forall sid' r, Async.Posted sid' r ∉ evs)
       ∧ headers req !! "X-API-Key" = Some (Async.api_key client))
  ∧ (forall address api_key timeout session w c w1 w' op payload,
       (forall r, session = Some r -> is_Some (Core.sessions w !! r)) ->
       Core.__init__ httpx_Client address api_key timeout session w = (inr c, w1) ->
       Core.sessions w' !! Core.instance_session c
         = Core.sessions w1 !! Core.instance_session c ->
       Core.payload_of op = inr payload ->
       Core.instance_api_key c = default "" api_key
       ∧ exists req rest,
           Core.log (snd (Core.invoke core_network json_loads c op w'))
           = Core.log w' ++ Post req :: rest
           ∧ (forall r, Post r ∉ rest)
           ∧ headers req !! "Authorization"
             = Some ("apikey " +:+ Core.instance_api_key c)
           ∧ (forall h, h ≠ "Authorization" ->
                Core.lower h = "authorization" -> headers req !! h = None))
  ∧ (forall c1 w address2 api_key2 timeout2 c2 w2 w' op payload,
       is_Some (Core.sessions w !! Core.instance_session c1) ->
       Core.__init__ httpx_Client address2 api_key2 timeout2
         (Some (Core.instance_session c1)) w = (inr c2, w2) ->
       Core.sessions w' !! Core.instance_session c1
         = Core.sessions w2 !! Core.instance_session c1 ->
       Core.payload_of op = inr payload ->
       exists req rest,
         Core.log (snd (Core.invoke core_network json_loads c1 op w'))
         = Core.log w' ++ Post req :: rest
         ∧ (forall r, Post r ∉ rest)
         ∧ headers req !! "Authorization"
           = Some ("apikey " +:+ Core.instance_api_key c2))
  ∧ (forall c op w,
       Core.sessions (snd (Core.invoke core_network json_loads c op w))
       = Core.sessions w)
  ∧ (forall address api_key timeout session w c w1 r,
       is_Some (Core.sessions w !! r) ->
       session ≠ Some r ->
       Core.__init__ httpx_Client address api_key timeout session w = (inr c, w1) ->
       Core.sessions w1 !! r = Core.sessions w !! r).
Proof.
  assert (Hinit : forall address api_key timeout session w c w1,
            (forall r, session = Some r -> is_Some (Core.sessions w !! r)) ->
            Core.__init__ httpx_Client address api_key timeout session w
              = (inr c, w1) ->
            exists s,
              c = Core.mkInstance address (default "" api_key)
                    (default (VInt 1) timeout) (Core.instance_session c)
              ∧ (forall r, session = Some r -> Core.instance_session c = r)
              ∧ w1 = Core.mkWorld
                       (<[Core.instance_session c :=
                            Core._prepare_session (default "" api_key)
                              (default (VInt 1) timeout) s]> (Core.sessions w))
                       (Core.log w)).
  { intros address api_key timeout [r|] w c w1 Hvalid Hi.
    - destruct (Hvalid r eq_refl) as [s Hs].
      rewrite (Core.init_shared _ _ _ _ _ _ _ Hs) in Hi.
      injection Hi as <- <-. exists s. split; [done|]. split; [|done].
      by intros r' [= <-].
    - rewrite Core.init_own in Hi. injection Hi as <- <-. eexists.
      split; [done|]. split; [|done]. intros r' Hr'. discriminate Hr'. }
  assert (Hcall : forall c w s op payload,
            Core.sessions w !! Core.instance_session c = Some s ->
            Core.payload_of op = inr payload ->
            exists req rest,
              Core.log (snd (Core.invoke core_network json_loads c op w))
              = Core.log w ++ Post req :: rest
              ∧ (forall r, Post r ∉ rest)
              ∧ headers req = Core.session_headers s).
  { intros c w s op payload Hs Hp.
    erewrite Core.invoke_view; [|unfold Core.view; by rewrite Hs].
    cbn [snd Core.log].
    destruct (Core.call_posts_first core_network json_loads
                (Core.mkClient (Core.instance_address c) (Core.instance_api_key c)
                   (Core.instance_timeout c) s) op payload (Core.log w) Hp)
      as (rest & Htr & Hrest).
    eexists _, rest. split; [exact Htr|]. split; [exact Hrest|reflexivity]. }
  split; [|split; [|split; [|split]]].
  - intros client cls fields api t st Hapi.
    destruct (Async.make_request_posts_last async_network SERVER_SOFTWARE
                __version__ check_response client cls fields api t st Hapi)
      as (evs & sid & hdrs & Htr & Hevs).
    exists evs, sid. eexists. split; [exact Htr|]. split.
    + intros sid' r Hin.
      destruct Hevs as [->| ->]; [inversion Hin|].
      apply list_elem_of_singleton in Hin. discriminate.
    + cbn. apply lookup_insert_eq.
  - intros address api_key timeout session0 w c w1 w' op payload
           Hvalid Hi Hsame Hp.
    destruct (Hinit _ _ _ _ _ _ _ Hvalid Hi) as (s & Hc & _ & ->).
    split; [by rewrite Hc|].
    cbn [Core.sessions] in Hsame. rewrite lookup_insert_eq in Hsame.
    destruct (Hcall c w' _ op payload Hsame Hp)
      as (req & rest & Htr & Hrest & Hh).
    exists req, rest. split; [exact Htr|]. split; [exact Hrest|].
    destruct (Core.headers_setitem_lookup "Authorization"
                ("apikey " +:+ default "" api_key) (Core.session_headers s))
      as (Hset & Hvariants & _).
    rewrite Hh, Hc. cbn. split; [exact Hset|exact Hvariants].
  - intros c1 w address2 api_key2 timeout2 c2 w2 w' op payload
           Hvalid Hi Hsame Hp.
    assert (Hvalid2 : forall r, Some (Core.instance_session c1) = Some r ->
              is_Some (Core.sessions w !! r)) by (by intros r [= <-]).
    destruct (Hinit _ _ _ _ _ _ _ Hvalid2 Hi) as (s2 & Hc2 & Href & ->).
    rewrite (Href _ eq_refl) in Hsame.
    cbn [Core.sessions] in Hsame. rewrite lookup_insert_eq in Hsame.
    destruct (Hcall c1 w' _ op payload Hsame Hp)
      as (req & rest & Htr & Hrest & Hh).
    exists req, rest. split; [exact Htr|]. split; [exact Hrest|].
    destruct (Core.headers_setitem_lookup "Authorization"
                ("apikey " +:+ default "" api_key2) (Core.session_headers s2))
      as (Hset & _).
    rewrite Hh, Hc2. cbn. exact Hset.
  - intros c op w. unfold Core.invoke.
    destruct (Core.view w c) as [self|]; [|reflexivity].
    by destruct (Core.call core_network json_loads self op (Core.log w)).
  - intros address api_key timeout session0 w c w1 r [s Hs] Hne Hi.
    destruct session0 as [r'|].
    + unfold Core.__init__ in Hi. cbn in Hi. injection Hi as _ <-. cbn.
      apply lookup_alter_ne. intros ->. by apply Hne.
    + rewrite Core.init_own in Hi. injection Hi as _ <-. cbn.
      apply lookup_insert_ne. intros Hfresh.
      apply (is_fresh (dom (Core.sessions w))). rewrite Hfresh.
      apply elem_of_dom. eauto.
Qed.

(** C7, as the code has it. The aiohttp session posts with
    [timeout or self._timeout]: a request for a descriptor is posted, once,
    with the timeout of the call when that is truthy and with the timeout of
    the session when the call gives [None] or a zero. The blocking client has
    no timeout per call: each typed method posts its request, once, with the
    timeout the client was built with. A blocking client built without a
    timeout posts with 1, an aiohttp session holding [DEFAULT_TIMEOUT] posts
    with 60.0 when the call gives no timeout, and both defaults are between
    1 and 60. *)
Theorem request_timeout_used :
  (forall client cls fields api_method t st,
     Methods.__api_method__ cls = Some api_method ->
     exists evs sid req,
       Async.trace (snd (Async.make_request async_network SERVER_SOFTWARE
                           __version__ check_response client
                           (Methods.OModel cls fields) t st))
       = Async.trace st ++ evs ++ [Async.Posted sid req]
       ∧ (forall sid' r, Async.Posted sid' r ∉ evs)
       ∧ timeout req = (if truthy t then t else Async._timeout (Async.self st)))
  ∧ (forall self op payload tr,
       Core.payload_of op = inr payload ->
       exists req rest,
         snd (Core.call core_network json_loads self op tr)
         = tr ++ Post req :: rest
         ∧ (forall r, Post r ∉ rest)
         ∧ timeout req = Core.client_timeout self)
  ∧ (forall address api_key session w c w1 op payload,
       (forall r, session = Some r -> is_Some (Core.sessions w !! r)) ->
       Core.__init__ httpx_Client address api_key None session w = (inr c, w1) ->
       Core.payload_of op = inr payload ->
       exists req rest,
         Core.log (snd (Core.invoke core_network json_loads c op w1))
         = Core.log w1 ++ Post req :: rest
         ∧ (forall r, Post r ∉ rest)
         ∧ timeout req = VInt 1)
  ∧ (forall base_url client cls fields api_method t n tr,
       Methods.__api_method__ cls = Some api_method ->
       truthy t = false ->
       exists sid req,
         Async.trace
           (snd (Async.make_request async_network SERVER_SOFTWARE __version__
                   check_response client (Methods.OModel cls fields) t
                   (Async.mkState (Async.__init__ base_url None) n tr)))
         = tr ++ [Async.Created n; Async.Posted sid req]
         ∧ timeout req = VFloat 60%float)
  ∧ in_documented_range (VInt 1) = true
  ∧ in_documented_range Async.DEFAULT_TIMEOUT = true.
Proof.
  split; [|split; [|split; [|split; [|split; reflexivity]]]].
  - intros client cls fields api t st Hapi.
    destruct (Async.make_request_posts_last async_network SERVER_SOFTWARE
                __version__ check_response client cls fields api t st Hapi)
      as (evs & sid & hdrs & Htr & Hevs).
    exists evs, sid. eexists. split; [exact Htr|]. split; [|reflexivity].
    intros sid' r Hin.
    destruct Hevs as [->| ->]; [inversion Hin|].
    apply list_elem_of_singleton in Hin. discriminate.
  - intros self op payload tr Hp.
    destruct (Core.call_posts_first core_network json_loads self op payload tr Hp)
      as (rest & Htr & Hrest).
    eexists _, rest. split; [exact Htr|]. split; [exact Hrest|reflexivity].
  - intros address api_key session0 w c w1 op payload Hvalid Hi Hp.
    assert (Hview : exists s,
              Core.view w1 c = Some (Core.mkClient address (default "" api_key)
                                       (VInt 1) s)
              ∧ Core.log w1 = Core.log w).
    { destruct session0 as [r|].
      - destruct (Hvalid r eq_refl) as [s Hs].
        rewrite (Core.init_shared _ _ _ _ _ _ _ Hs) in Hi.
        injection Hi as <- <-. unfold Core.view. cbn.
        rewrite lookup_insert_eq. eauto.
      - rewrite Core.init_own in Hi. injection Hi as <- <-.
        unfold Core.view. cbn. rewrite lookup_insert_eq. eauto. }
    destruct Hview as (s & Hview & Hlog).
    rewrite (Core.invoke_view _ _ _ _ _ _ Hview). cbn [snd Core.log].
    destruct (Core.call_posts_first core_network json_loads
                (Core.mkClient address (default "" api_key) (VInt 1) s)
                op payload (Core.log w1) Hp) as (rest & Htr & Hrest).
    eexists _, rest. split; [exact Htr|]. split; [exact Hrest|reflexivity].
  - intros base_url client cls fields api t n tr Hapi Ht.
    rewrite (Async.make_request_fresh async_network SERVER_SOFTWARE __version__
               check_response client cls fields api t
               (Async.mkState (Async.__init__ base_url None) n tr)
               eq_refl Hapi).
    cbn. eexists _, _. split; [by rewrite <- app_assoc|].
    cbn. unfold py_or. by rewrite Ht.
Qed.

(** C6, as the code has it. In the blocking client [send] returns the
    response of a status-200 call as it arrived: it posts, decodes nothing
    and does not look for [error] or [result], which [_send_one] does. In
    the aiohttp session [make_request] hands the status and the body to
    [check_response] and returns the [result] member of the envelope it
    yields, or raises what it raises; the envelope itself is not returned.
    The facade of [client.py] returns what its session returns. *)
Theorem transport_return :
  (forall self method payload tr resp,
     core_network tr (Core.request_of self method payload) = inr resp ->
     status_code resp = 200 ->
     Core.send core_network self method payload tr =
       (inr resp, tr ++ [Post (Core.request_of self method payload)]))
  ∧ (forall client cls fields api_method t st resp,
       Methods.__api_method__ cls = Some api_method ->
       (forall tr req, async_network tr req = inr resp) ->
       fst (Async.make_request async_network SERVER_SOFTWARE __version__
              check_response client (Methods.OModel cls fields) t st) =
       match check_response client (Methods.OModel cls fields)
               (status_code resp) (content resp) with
       | inl e => inl e
       | inr response => inr (Async.result response)
       end)
  ∧ (forall self method request_timeout,
       Sync.__call__ W session self method request_timeout =
       session self method request_timeout).
Proof.
  repeat split.
  - intros self method payload tr resp Hnet Hst.
    rewrite (Core.send_response _ _ _ _ _ _ Hnet), Hst. reflexivity.
  - intros client cls fields api t st resp Hapi Hnet.
    destruct (Async.open_session (Async.self st)) as [s0|] eqn:Hopen.
    + rewrite (Async.make_request_reuse _ _ _ _ _ _ _ _ _ _ _ Hopen Hapi).
      cbn [fst]. rewrite Hnet. reflexivity.
    + rewrite (Async.make_request_fresh _ _ _ _ _ _ _ _ _ _ Hopen Hapi).
      cbn [fst]. rewrite Hnet. reflexivity.
Qed.

End Clients.

(** ** A scenario

    A server that answers every request with one response, a JSON decoder
    that knows the bodies below, and a client for each module; the theorems
    above are run on it. *)

Module Scenario.

Import Methods.

Definition quote (s : string) : string :=
  String (Ascii.ascii_of_nat 34) s +:+ String (Ascii.ascii_of_nat 34) "".

(** [{"error": {"code": 1, "message": "m"}}] *)
Definition error_body : string :=
  "{" +:+ quote "error" +:+ ": {" +:+ quote "code" +:+ ": 1, "
    +:+ quote "message" +:+ ": " +:+ quote "m" +:+ "}}".

(** [{"result": {"num_clients": 3, "num_users": 2}}] *)
Definition stats_body : string :=
  "{" +:+ quote "result" +:+ ": {" +:+ quote "num_clients" +:+ ": 3, "
    +:+ quote "num_users" +:+ ": 2}}".

(** [{"result": {"offset": 7, "epoch": "e", "node": "n1"}}] *)
Definition publish_body : string :=
  "{" +:+ quote "result" +:+ ": {" +:+ quote "offset" +:+ ": 7, "
    +:+ quote "epoch" +:+ ": " +:+ quote "e" +:+ ", "
    +:+ quote "node" +:+ ": " +:+ quote "n1" +:+ "}}".

(** [{}] *)
Definition empty_body : string := "{}".

Definition error_object : value :=
  VDict (<["code" := VInt 1]> (<["message" := VStr "m"]> ∅)).

Definition stats_result : gmap string value :=
  <["num_clients" := VInt 3]> (<["num_users" := VInt 2]> ∅).

Definition publish_result : gmap string value :=
  <["offset" := VInt 7]> (<["epoch" := VStr "e"]> (<["node" := VStr "n1"]> ∅)).

Definition json_loads (s : string) : option value :=
  if String.eqb s error_body then Some (VDict (<["error" := error_object]> ∅))
  else if String.eqb s stats_body
  then Some (VDict (<["result" := VDict stats_result]> ∅))
  else if String.eqb s publish_body
  then Some (VDict (<["result" := VDict publish_result]> ∅))
  else if String.eqb s empty_body then Some (VDict ∅)
  else if String.eqb s "[]" then Some (VList [])
  else if String.eqb s "null" then Some VNone
  else None.

(** The server that answers [resp] to everything. *)
Definition server {E : Type} (resp : Response) : list E -> Request -> exn + Response :=
  fun _ _ => inr resp.

(** A mixin that puts every argument under its name. *)
#[local] Instance mixin : Core.ParamsMixin :=
  {| Core.get_publish_params c d sh :=
       inr (<["channel" := c]> (<["data" := d]> (<["skip_history" := sh]> ∅)));
     Core.get_broadcast_params cs d sh :=
       inr (<["channels" := cs]> (<["data" := d]> (<["skip_history" := sh]> ∅)));
     Core.get_subscribe_params u c cl :=
       inr (<["user" := u]> (<["channel" := c]> (<["client" := cl]> ∅)));
     Core.get_unsubscribe_params u c cl :=
       inr (<["user" := u]> (<["channel" := c]> (<["client" := cl]> ∅)));
     Core.get_disconnect_params u cl :=
       inr (<["user" := u]> (<["client" := cl]> ∅));
     Core.get_presence_params c := inr (<["channel" := c]> ∅);
     Core.get_presence_stats_params c := inr (<["channel" := c]> ∅);
     Core.get_history_params c l s r :=
       inr (<["channel" := c]> (<["limit" := l]> (<["since" := s]>
              (<["reverse" := r]> ∅))));
     Core.get_history_remove_params c := inr (<["channel" := c]> ∅);
     Core.get_channels_params p := inr (<["pattern" := p]> ∅);
     Core.get_info_params := inr ∅ |}.

Definition httpx_Client : Core.Session := Core.mkSession ∅ VNone.

(** The objects before any client is built. *)
Definition world0 : Core.world := Core.mkWorld ∅ [].

(** [Client("http://localhost:8000/api", "secret")]: the object, and the
    objects once it is built. *)
Definition client_object : Core.instance :=
  Core.mkInstance "http://localhost:8000/api" "secret" (VInt 1) 0.

Definition world1 : Core.world :=
  snd (Core.__init__ httpx_Client "http://localhost:8000/api" (Some "secret")
         None None world0).

(** That client as its methods find it. *)
Definition client : Core.Client :=
  Core.mkClient "http://localhost:8000/api" "secret" (VInt 1)
    (Core._prepare_session "secret" (VInt 1) httpx_Client).

Example client_built :
  Core.__init__ httpx_Client "http://localhost:8000/api" (Some "secret")
    None None world0 = (inr client_object, world1)
  ∧ Core.view world1 client_object = Some client.
Proof. split; vm_compute; reflexivity. Qed.

Definition data : value := VDict (<["data" := VStr "data"]> ∅).

Definition publish_op : Core.operation :=
  Core.Publish (VStr "personal:1") data None.

Definition publish_payload : gmap string value :=
  <["channel" := VStr "personal:1"]>
    (<["data" := data]> (<["skip_history" := VBool false]> ∅)).

Definition stats_op : Core.operation := Core.PresenceStats (VStr "ch").

Definition stats_payload : gmap string value := <["channel" := VStr "ch"]> ∅.

(** An instance of C1: [publish] against a server that answers
    [{"error": {"code": 1, "message": "m"}}]. *)
Lemma error_envelope_raises_witness :
  Core.call (server (mkResponse 200 error_body)) json_loads client publish_op [] =
    (inl (ResponseError error_object),
     [Post (Core.request_of client "publish" publish_payload);
      Decode error_body]).
Proof.
  apply (Core.error_envelope_raises (server (mkResponse 200 error_body))
           json_loads client publish_op publish_payload []
           (mkResponse 200 error_body) (<["error" := error_object]> ∅) 1 "m");
    reflexivity.
Defined.

(** An instance of C3: [publish] against a server that answers 503. *)
Lemma wrong_status_raises_witness :
  Core.call (server (mkResponse 503 "Service Unavailable")) json_loads client
    publish_op [] =
    (inl (RequestException (Message "wrong status code: 503")),
     [Post (Core.request_of client "publish" publish_payload)])
  ∧ filter (fun e => is_Decode e = true)
      (snd (Core.call (server (mkResponse 503 "Service Unavailable")) json_loads
              client publish_op [])) = [].
Proof.
  apply (Core.wrong_status_raises (server (mkResponse 503 "Service Unavailable"))
           json_loads client publish_op publish_payload []
           (mkResponse 503 "Service Unavailable")).
  - reflexivity.
  - reflexivity.
  - cbn. lia.
Defined.

(** An instance of C9: [_send_one] on an envelope with an error, with a
    result, and with neither. *)
Lemma _send_one_envelope_witness :
  fst (Core._send_one (server (mkResponse 200 error_body)) json_loads client
         "publish" (inr publish_payload) []) = inl (ResponseError error_object)
  ∧ fst (Core._send_one (server (mkResponse 200 publish_body)) json_loads client
           "publish" (inr publish_payload) []) = inr (VDict publish_result)
  ∧ fst (Core._send_one (server (mkResponse 200 empty_body)) json_loads client
           "publish" (inr publish_payload) []) = inr (VDict ∅).
Proof.
  split; [|split].
  - apply (Core._send_one_envelope (server (mkResponse 200 error_body))
             json_loads client "publish" publish_payload []
             (mkResponse 200 error_body) (<["error" := error_object]> ∅));
      reflexivity.
  - apply (Core._send_one_envelope (server (mkResponse 200 publish_body))
             json_loads client "publish" publish_payload []
             (mkResponse 200 publish_body)
             (<["result" := VDict publish_result]> ∅)); reflexivity.
  - apply (Core._send_one_envelope (server (mkResponse 200 empty_body))
             json_loads client "publish" publish_payload []
             (mkResponse 200 empty_body) ∅); reflexivity.
Defined.

(** Bodies that are no envelope: a body that is not JSON, and JSON that is
    not an object, the latter having no key to look for. *)
Example _send_one_not_an_envelope :
  fst (Core._send_one (server (mkResponse 200 "<html>")) json_loads client
         "publish" (inr publish_payload) []) = inl (JSONDecodeError "<html>")
  ∧ fst (Core._send_one (server (mkResponse 200 "[]")) json_loads client
           "publish" (inr publish_payload) []) =
      inl (AttributeError "'list' object has no attribute 'get'")
  ∧ fst (Core._send_one (server (mkResponse 200 "null")) json_loads client
           "publish" (inr publish_payload) []) =
      inl (TypeError "argument of type 'NoneType' is not iterable").
Proof. repeat split. Qed.

(** Modelled from the spec: the fields section 4.1 documents for the result
    of [publish]. *)
Definition publish_result_fields : list string := ["offset"; "epoch"].

(** A typed result without extra fields: a dict with documented keys only. *)
Definition no_extra_fields (documented : list string) (v : value) : Prop :=
  match v with
  | VDict r => forall k, is_Some (r !! k) -> k ∈ documented
  | _ => True
  end.

(** C4 fails for [publish]: on the result
    [{"offset": 7, "epoch": "e", "node": "n1"}] the dict returned has the
    key [node], which is no documented field. *)
Lemma publish_returns_undocumented_field :
  ~ (forall v,
       fst (Core.call (server (mkResponse 200 publish_body)) json_loads client
              publish_op []) = inr v ->
       no_extra_fields publish_result_fields v).
Proof.
  intros Hclaim.
  specialize (Hclaim (VDict publish_result) eq_refl). cbn in Hclaim.
  specialize (Hclaim "node" (ex_intro _ (VStr "n1") eq_refl)).
  unfold publish_result_fields in Hclaim.
  apply elem_of_cons in Hclaim as [Hk|Hk]; [discriminate|].
  apply elem_of_cons in Hk as [Hk|Hk]; [discriminate|].
  inversion Hk.
Qed.

(** An instance of C4 as the code has it: [presence_stats] on the result
    [{"num_clients": 3, "num_users": 2}] returns these two and no more. *)
Lemma typed_result_projection_witness :
  fst (Core.call (server (mkResponse 200 stats_body)) json_loads client
         stats_op []) =
    inr (VDict (<["num_clients" := VInt 3]> (<["num_users" := VInt 2]> ∅))).
Proof.
  exact (Core.typed_result_projection (server (mkResponse 200 stats_body))
           json_loads client stats_op stats_payload []
           (mkResponse 200 stats_body)
           (<["result" := VDict stats_result]> ∅) stats_result
           eq_refl eq_refl eq_refl eq_refl eq_refl eq_refl).
Defined.

(** *** Descriptors *)

(** A strict validation: a value is kept when it has the shape its
    annotation asks for, and refused otherwise. *)
Fixpoint validate (a : annotation) (o : obj) : option obj :=
  match a with
  | AOptional a' => if is_none o then Some o else validate a' o
  | AAny => Some o
  | AStr => match o with OVal (VStr _) => Some o | _ => None end
  | ABool => match o with OVal (VBool _) => Some o | _ => None end
  | AInt => match o with OVal (VInt _) => Some o | _ => None end
  | ADict _ _ => match o with OVal (VDict _) => Some o | _ => None end
  | AList _ => match o with OVal (VList _) => Some o | _ => None end
  | AModel name =>
      match o with
      | OModel cls _ => if String.eqb name (class_name cls) then Some o else None
      | OVal _ => None
      end
  end.

Lemma validate_same a o o' : validate a o = Some o' -> o' = o.
Proof.
  revert o o'. induction a; intros o o' Hv; cbn in Hv;
    repeat match type of Hv with
           | (if ?b then _ else _) = _ => destruct b
           | match ?x with _ => _ end = _ => destruct x
           end; try discriminate; try (injection Hv as <-; reflexivity).
  by apply IHa.
Qed.

Lemma validate_keeps a o o' : validate a o = Some o' -> is_none o' = is_none o.
Proof. intros Hv. by rewrite (validate_same _ _ _ Hv). Qed.

(** [publish("personal:1", {"data": "data"}, skip_history=False,
    tags={"tag": "tag"})] *)
Definition publish_kwargs : gmap string obj :=
  <["channel" := OVal (VStr "personal:1")]>
    (<["data" := OVal data]>
      (<["skip_history" := OVal (VBool false)]>
        (<["tags" := OVal (VDict (<["tag" := VStr "tag"]> ∅))]> ∅))).

Definition publish_fields : list (string * obj) :=
  [ ("channel", OVal (VStr "personal:1"));
    ("data", OVal data);
    ("skip_history", OVal (VBool false));
    ("tags", OVal (VDict (<["tag" := VStr "tag"]> ∅)));
    ("b64data", PyNone);
    ("idempotency_key", PyNone) ].

Definition publish_method : obj := OModel PublishMethod publish_fields.

Example publish_method_constructed :
  construct validate PublishMethod publish_kwargs = inr publish_method.
Proof. reflexivity. Qed.

(** The body of the request of section 8: the four fields given, [False]
    included, and neither [b64data] nor [idempotency_key]. *)
Example publish_method_body :
  json_data true publish_method =
    inr (<["channel" := VStr "personal:1"]>
          (<["data" := data]>
            (<["skip_history" := VBool false]>
              (<["tags" := VDict (<["tag" := VStr "tag"]> ∅)]> ∅)))).
Proof. vm_compute. reflexivity. Qed.

(** A nested model is dumped without its unset fields too. *)
Example subscribe_override_body :
  model_dump true
    (OModel SubscribeMethod
       [ ("user", OVal (VStr "u")); ("channel", OVal (VStr "ch"));
         ("client", PyNone);
         ("override",
          OModel ChannelOptionsOverride
            [ ("presence", OModel (mkClass "BoolValue" None [required "value" ABool])
                             [("value", OVal (VBool true))]);
              ("join_leave", PyNone) ]) ]) =
    VDict (<["user" := VStr "u"]>
            (<["channel" := VStr "ch"]>
              (<["override" :=
                   VDict (<["presence" := VDict (<["value" := VBool true]> ∅)]> ∅)]>
                 ∅))).
Proof. vm_compute. reflexivity. Qed.

(** *** The aiohttp session *)

(** Modelled from the spec: [BaseSession.check_response] is missing. By
    section 4.2 a status other than 200 raises, and otherwise the body is
    decoded into the envelope, whose [error] and [result] are left as they
    are. *)
Definition check_response (client : Async.AsyncClient) (method : obj)
    (status : Z) (content : string) : exn + Async.envelope :=
  if negb (Z.eqb status 200) then inl (OtherError "TransportError")
  else
    match json_loads content with
    | Some (VDict d) =>
        inr (Async.mkEnvelope (default VNone (d !! "result"))
               (default VNone (d !! "error")))
    | _ => inl (JSONDecodeError content)
    end.

Definition async_client : Async.AsyncClient := Async.mkAsyncClient "secret".

Definition session0 : Async.state :=
  Async.mkState (Async.__init__ "http://localhost:8000/api" None) 0 [].

Definition make_request (resp : Response) :=
  Async.make_request (server resp) "Python/3.11 aiohttp/3.9" "5.0.0" check_response.

Definition close := Async.close.

(** An instance of C2: the descriptor of the call above, posted. *)
Lemma request_omits_unset_fields_witness :
  exists pre sid req,
    Async.trace (snd (make_request (mkResponse 200 publish_body) async_client
                        publish_method VNone session0)) = pre ++ [Async.Posted sid req]
    ∧ (forall f, f ∈ model_fields PublishMethod -> field_default f = Some VNone ->
         publish_kwargs !! field_name f = None
         ∨ publish_kwargs !! field_name f = Some PyNone ->
         json req !! field_name f = None)
    ∧ (forall f o, f ∈ model_fields PublishMethod ->
         publish_kwargs !! field_name f = Some o -> is_none o = false ->
         exists o', validate (field_annotation f) o = Some o'
           ∧ json req !! field_name f = Some (model_dump true o'))
    ∧ (forall k, json req !! k ≠ Some VNone).
Proof.
  apply (Async.request_omits_unset_fields (server (mkResponse 200 publish_body))
           "Python/3.11 aiohttp/3.9" "5.0.0" check_response validate
           async_client PublishMethod publish_kwargs publish_method "publish"
           VNone session0).
  - apply (bool_decide_unpack (NoDup (field_names PublishMethod))).
    vm_compute. exact I.
  - exact validate_keeps.
  - reflexivity.
  - reflexivity.
Defined.

(** *** The facade *)

(** A session that records the descriptor and the timeout it is called
    with. *)
Definition sync_session (self : Sync.Client) (method request_timeout : obj)
    : M (list (obj * obj)) obj :=
  fun w => (inr PyNone, w ++ [(method, request_timeout)]).

Definition sync_client : Sync.Client :=
  Sync.mkClient "http://localhost:8000/api" "secret".

Definition publish := Sync.publish (list (obj * obj)) validate sync_session.

(** [publish(data={"data": "data"})] *)
Definition kwargs_without_channel : gmap string obj := <["data" := OVal data]> ∅.

(** An instance of C5: [publish] without [channel]. *)
Lemma missing_required_is_local_witness :
  exists msg,
    Sync.run (list (obj * obj)) validate sync_session Sync.PublishCall
      sync_client kwargs_without_channel [] = (inl (TypeError msg), []).
Proof.
  refine (proj1 (Sync.missing_required_is_local (list (obj * obj)) validate
                   sync_session Sync.PublishCall sync_client
                   kwargs_without_channel [] "channel" _ _)).
  - cbn. apply elem_of_cons. left. reflexivity.
  - reflexivity.
Defined.

Example publish_without_channel :
  publish sync_client kwargs_without_channel [] =
    (inl (TypeError
            "Client.publish() missing 1 required positional argument: 'channel'"),
     []).
Proof. vm_compute. reflexivity. Qed.

Example publish_channel_none :
  publish sync_client (<["channel" := PyNone]> kwargs_without_channel) [] =
    (inl (ValidationError ["channel"]), []).
Proof. vm_compute. reflexivity. Qed.

Example publish_reaches_session :
  publish sync_client (<["request_timeout" := OVal (VInt 5)]> publish_kwargs) [] =
    (inr PyNone, [(publish_method, OVal (VInt 5))]).
Proof. vm_compute. reflexivity. Qed.

Example subscribe_without_channel :
  construct validate SubscribeMethod (<["user" := OVal (VStr "user")]> ∅) =
    inl (ValidationError ["channel"]).
Proof. vm_compute. reflexivity. Qed.

(** *** The life of the session *)

(** An instance of C10: the first request of a new session object creates
    session 0 and leaves it open. *)
Lemma session_lifecycle_witness :
  Async.open_session (Async.self (snd (Async.close session0))) = None
  ∧ Async.created
      (snd (make_request (mkResponse 200 publish_body) async_client
              publish_method VNone session0)) = 1%nat
  ∧ exists s,
      Async.open_session
        (Async.self
           (snd (make_request (mkResponse 200 publish_body) async_client
                   publish_method VNone session0))) = Some s
      ∧ Async.id s = 0%nat.
Proof.
  assert (Hwf : Async.wf session0) by (intros s Hs; cbn in Hs; discriminate).
  destruct (Async.session_lifecycle (server (mkResponse 200 publish_body))
              "Python/3.11 aiohttp/3.9" "5.0.0" check_response async_client
              PublishMethod publish_fields "publish" VNone session0
              eq_refl Hwf) as (_ & Hclose & Hfresh & _).
  destruct (Hfresh eq_refl) as (_ & _ & Hcreated & Hs & _).
  split; [exact Hclose|]. split; [exact Hcreated|exact Hs].
Defined.

Definition summary (e : Async.event) : string :=
  match e with
  | Async.Created n => "created " +:+ pretty n
  | Async.Closed n => "closed " +:+ pretty n
  | Async.Sleep => "sleep"
  | Async.Posted n _ => "posted on " +:+ pretty n
  end.

(** Three requests with a [close] before the last: the first creates
    session 0, the second posts on it, the third creates session 1. *)
Example session_lifecycle_run :
  let run := make_request (mkResponse 200 publish_body) async_client
               publish_method VNone in
  let st1 := snd (run session0) in
  let st2 := snd (run st1) in
  let st3 := snd (close st2) in
  let st4 := snd (run st3) in
  summary <$> Async.trace st4 =
    [ "created 0"; "posted on 0"; "posted on 0"; "closed 0"; "sleep";
      "created 1"; "posted on 1" ]
  ∧ fst (run st3) = inr (VDict publish_result).
Proof. vm_compute. split; reflexivity. Qed.

(** *** What the transports return *)

(** The envelope as one object, [{"result": ..., "error": ...}]. *)
Definition raw_envelope (e : Async.envelope) : value :=
  VDict (<["result" := Async.result e]> (<["error" := Async.error e]> ∅)).

(** C6 fails for the aiohttp session: on a 200 response with the body
    [{"result": {"num_clients": 3, "num_users": 2}}], which [check_response]
    decodes into an envelope, [make_request] returns the inner result, not
    the envelope. *)
Lemma make_request_returns_result_only :
  ~ (forall response,
       check_response async_client publish_method 200 stats_body = inr response ->
       fst (make_request (mkResponse 200 stats_body) async_client publish_method
              VNone session0) = inr (raw_envelope response)).
Proof.
  intros Hclaim. specialize (Hclaim _ eq_refl).
  assert (Hr : fst (make_request (mkResponse 200 stats_body) async_client
                      publish_method VNone session0) = inr (VDict stats_result))
    by reflexivity.
  rewrite Hr in Hclaim.
  apply (f_equal (fun r : exn + value =>
                    match r with
                    | inr (VDict d) => d !! "result"
                    | _ => None
                    end)) in Hclaim.
  vm_compute in Hclaim. discriminate.
Qed.

(** With that [check_response] an error envelope comes back as [None],
    exactly as an empty one does. *)
Example make_request_error_envelope :
  fst (make_request (mkResponse 200 error_body) async_client publish_method
         VNone session0) = inr VNone
  ∧ fst (make_request (mkResponse 200 empty_body) async_client publish_method
           VNone session0) = inr VNone.
Proof. split; reflexivity. Qed.

(** An instance of C6 as the code has it: [send] on a 200 response with an
    error envelope returns the response. *)
Lemma transport_return_witness :
  Core.send (server (mkResponse 200 error_body)) client "publish" publish_payload [] =
    (inr (mkResponse 200 error_body),
     [Post (Core.request_of client "publish" publish_payload)]).
Proof.
  exact (proj1 (transport_return (server (mkResponse 200 error_body))
                  (server (mkResponse 200 error_body))
                  "Python/3.11 aiohttp/3.9" "5.0.0" check_response
                  (list (obj * obj)) sync_session)
           client "publish" publish_payload [] (mkResponse 200 error_body)
           eq_refl eq_refl).
Defined.

(** *** Timeouts and headers *)

Definition publish_request (t : value) : Request :=
  Async.request_of async_client session0 "publish"
    (list_to_map (dump_fields true publish_fields)) t
    (Async.default_headers "Python/3.11 aiohttp/3.9" "5.0.0").

Lemma publish_request_posted t :
  Async.Posted 0 (publish_request t) ∈
    Async.trace (snd (make_request (mkResponse 200 publish_body) async_client
                        publish_method t session0)).
Proof.
  unfold make_request.
  unfold publish_method.
  rewrite (Async.make_request_fresh (server (mkResponse 200 publish_body))
             "Python/3.11 aiohttp/3.9" "5.0.0" check_response async_client
             PublishMethod publish_fields "publish" t session0 eq_refl eq_refl).
  cbn. apply elem_of_cons. right. apply elem_of_cons. left. reflexivity.
Qed.

(** C7 fails for a timeout of zero: the request posted for
    [make_request(client, method, timeout=0)] has the timeout of the
    session, 60.0. *)
Lemma zero_timeout_not_used :
  ~ (forall sid req,
       Async.Posted sid req ∈
         Async.trace (snd (make_request (mkResponse 200 publish_body) async_client
                             publish_method (VInt 0) session0)) ->
       timeout req = VInt 0).
Proof.
  intros Hclaim.
  specialize (Hclaim _ _ (publish_request_posted (VInt 0))).
  vm_compute in Hclaim. discriminate.
Qed.

(** An instance of C7 as the code has it: [make_request] with a timeout of
    5 posts its request with 5, and [publish] of the blocking client posts
    with the 1 the client was built with. *)
Lemma request_timeout_used_witness :
  (exists evs sid req,
     Async.trace (snd (make_request (mkResponse 200 publish_body) async_client
                         publish_method (VInt 5) session0))
     = Async.trace session0 ++ evs ++ [Async.Posted sid req]
     ∧ (forall sid' r, Async.Posted sid' r ∉ evs)
     ∧ timeout req = VInt 5)
  ∧ (exists req rest,
       snd (Core.call (server (mkResponse 200 publish_body)) json_loads client
              publish_op [])
       = [] ++ Post req :: rest
       ∧ (forall r, Post r ∉ rest)
       ∧ timeout req = VInt 1).
Proof.
  split.
  - exact (proj1 (request_timeout_used (server (mkResponse 200 publish_body))
                    json_loads httpx_Client (server (mkResponse 200 publish_body))
                    "Python/3.11 aiohttp/3.9" "5.0.0" check_response)
             async_client PublishMethod publish_fields "publish" (VInt 5)
             session0 eq_refl).
  - exact (proj1 (proj2 (request_timeout_used
                           (server (mkResponse 200 publish_body))
                           json_loads httpx_Client
                           (server (mkResponse 200 publish_body))
                           "Python/3.11 aiohttp/3.9" "5.0.0" check_response))
             client publish_op publish_payload [] eq_refl).
Defined.

(** With no timeout anywhere the defaults are used: 60.0 on a fresh aiohttp
    session, 1 on a blocking client. *)
Example default_timeouts_used :
  (exists sid req,
     Async.trace (snd (make_request (mkResponse 200 publish_body) async_client
                         publish_method VNone
                         (Async.mkState
                            (Async.__init__ "http://localhost:8000/api" None)
                            0 [])))
     = [Async.Created 0; Async.Posted sid req]
     ∧ timeout req = VFloat 60%float)
  ∧ (exists req rest,
       Core.log (snd (Core.invoke (server (mkResponse 200 publish_body))
                        json_loads client_object publish_op world1))
       = Post req :: rest
       ∧ timeout req = VInt 1).
Proof.
  split.
  - eexists _, _. split; vm_compute; reflexivity.
  - eexists _, _. split; vm_compute; reflexivity.
Qed.

Example zero_float_timeout :
  timeout (publish_request (VFloat 0%float)) = VFloat 60%float
  ∧ timeout (publish_request (VFloat 0.5%float)) = VFloat 0.5%float.
Proof. split; reflexivity. Qed.

(** An instance of C8 as the code has it: the request of a [publish]
    through each client carries the key of that client. *)
Lemma api_key_on_every_request_witness :
  (exists evs sid req,
     Async.trace (snd (make_request (mkResponse 200 publish_body) async_client
                         publish_method VNone session0))
     = Async.trace session0 ++ evs ++ [Async.Posted sid req]
     ∧ (forall sid' r, Async.Posted sid' r ∉ evs)
     ∧ headers req !! "X-API-Key" = Some "secret")
  ∧ Core.instance_api_key client_object = "secret"
  ∧ (exists req rest,
       Core.log (snd (Core.invoke (server (mkResponse 200 publish_body))
                        json_loads client_object publish_op world1))
       = Core.log world1 ++ Post req :: rest
       ∧ (forall r, Post r ∉ rest)
       ∧ headers req !! "Authorization" = Some "apikey secret"
       ∧ (forall h, h ≠ "Authorization" ->
            Core.lower h = "authorization" -> headers req !! h = None)).
Proof.
  split.
  - exact (proj1 (api_key_on_every_request (server (mkResponse 200 publish_body))
                    json_loads httpx_Client (server (mkResponse 200 publish_body))
                    "Python/3.11 aiohttp/3.9" "5.0.0" check_response)
             async_client PublishMethod publish_fields "publish" VNone
             session0 eq_refl).
  - refine (proj1 (proj2 (api_key_on_every_request
                            (server (mkResponse 200 publish_body))
                            json_loads httpx_Client
                            (server (mkResponse 200 publish_body))
                            "Python/3.11 aiohttp/3.9" "5.0.0" check_response))
              "http://localhost:8000/api" (Some "secret") None None world0
              client_object world1 world1 publish_op publish_payload _ _
              eq_refl eq_refl).
    + intros r Hr. discriminate Hr.
    + vm_compute. reflexivity.
Defined.

(** Two clients on one session object: [a = Client(address, "key-a")], then
    [b = Client(address, "key-b", session=a.session)]. *)
Definition client_a : Core.instance :=
  Core.mkInstance "http://localhost:8000/api" "key-a" (VInt 1) 0.

Definition client_b : Core.instance :=
  Core.mkInstance "http://localhost:8000/api" "key-b" (VInt 1) 0.

Definition world_a : Core.world :=
  snd (Core.__init__ httpx_Client "http://localhost:8000/api" (Some "key-a")
         None None world0).

Definition world_ab : Core.world :=
  snd (Core.__init__ httpx_Client "http://localhost:8000/api" (Some "key-b")
         None (Some (Core.instance_session client_a)) world_a).

Example two_clients_one_session :
  Core.__init__ httpx_Client "http://localhost:8000/api" (Some "key-a")
    None None world0 = (inr client_a, world_a)
  ∧ Core.__init__ httpx_Client "http://localhost:8000/api" (Some "key-b")
      None (Some (Core.instance_session client_a)) world_a
    = (inr client_b, world_ab)
  ∧ Core.log (snd (Core.invoke (server (mkResponse 200 publish_body)) json_loads
                     client_a publish_op world_ab))
    = [Post (mkRequest "http://localhost:8000/api"
               (<["Authorization" := "apikey key-b"]> ∅)
               (<["method" := VStr "publish"]> publish_payload) (VInt 1));
       Decode publish_body].
Proof. repeat split; vm_compute; reflexivity. Qed.

(** C8 fails for a client whose session is shared: after [b] is built on
    the session of [a], the request of [a.publish] carries the key of [b]. *)
Lemma shared_session_key_replaced :
  ~ (forall req,
       Post req ∈
         Core.log (snd (Core.invoke (server (mkResponse 200 publish_body))
                          json_loads client_a publish_op world_ab)) ->
       headers req !! "Authorization"
       = Some ("apikey " +:+ Core.instance_api_key client_a)).
Proof.
  intros Hclaim.
  specialize (Hclaim (mkRequest "http://localhost:8000/api"
                        (<["Authorization" := "apikey key-b"]> ∅)
                        (<["method" := VStr "publish"]> publish_payload)
                        (VInt 1))).
  assert (Hin : Post (mkRequest "http://localhost:8000/api"
                        (<["Authorization" := "apikey key-b"]> ∅)
                        (<["method" := VStr "publish"]> publish_payload)
                        (VInt 1)) ∈
                Core.log (snd (Core.invoke (server (mkResponse 200 publish_body))
                                 json_loads client_a publish_op world_ab))).
  { rewrite (proj2 (proj2 two_clients_one_session)).
    apply elem_of_cons. left. reflexivity. }
  specialize (Hclaim Hin). vm_compute in Hclaim. discriminate.
Qed.

Example publish_request_headers :
  headers (Core.request_of client "publish" publish_payload) =
    <["Authorization" := "apikey secret"]> ∅
  ∧ headers (publish_request VNone) =
      <["X-API-Key" := "secret"]>
        (<["User-Agent" := "Python/3.11 aiohttp/3.9 pycent/5.0.0"]>
          (<["Content-Type" := "application/json"]>
            (<["X-Centrifugo-Error-Mode" := "transport"]> ∅))).
Proof. split; vm_compute; reflexivity. Qed.

(** *** Further runs *)

(** A server that cannot be reached. *)
Definition unreachable {E : Type} (e : exn) : list E -> Request -> exn + Response :=
  fun _ _ => inl e.

(** A decoder that reads [{"result": null}] in every body. *)
Definition null_result_loads (s : string) : option value :=
  Some (VDict (<["result" := VNone]> ∅)).

(** An instance of X1: a connection error of the library, re-raised. *)
Lemma library_failure_surfaces_witness :
  Core.call (unreachable (RequestException (Message "connection refused")))
    json_loads client publish_op [] =
    (inl (RequestException
            (Wrapped (RequestException (Message "connection refused")))),
     [Post (Core.request_of client "publish" publish_payload)]).
Proof.
  exact (Core.library_failure_surfaces
           (unreachable (RequestException (Message "connection refused")))
           json_loads client publish_op publish_payload []
           (RequestException (Message "connection refused")) eq_refl eq_refl).
Defined.

(** An instance of X3: a 200 with a page of HTML. *)
Lemma undecodable_body_raises_witness :
  Core.call (server (mkResponse 200 "<html>")) json_loads client publish_op [] =
    (inl (JSONDecodeError "<html>"),
     [Post (Core.request_of client "publish" publish_payload); Decode "<html>"]).
Proof.
  exact (Core.undecodable_body_raises (server (mkResponse 200 "<html>"))
           json_loads client publish_op publish_payload []
           (mkResponse 200 "<html>") eq_refl eq_refl eq_refl eq_refl).
Defined.

(** An instance of X4: a 200 with the body [[]]. *)
Lemma non_object_body_raises_witness :
  exists msg,
    fst (Core.call (server (mkResponse 200 "[]")) json_loads client publish_op [])
      = inl (TypeError msg)
    ∨ fst (Core.call (server (mkResponse 200 "[]")) json_loads client publish_op [])
      = inl (AttributeError msg).
Proof.
  refine (Core.non_object_body_raises (server (mkResponse 200 "[]"))
            json_loads client publish_op publish_payload []
            (mkResponse 200 "[]") (VList []) eq_refl eq_refl eq_refl eq_refl _).
  intros d. discriminate.
Defined.

(** An instance of X5: [history] on the envelope [{}]. *)
Lemma empty_envelope_results_witness :
  fst (Core.call (server (mkResponse 200 empty_body)) json_loads client
         (Core.History (VStr "ch") None None None) []) =
    inr (VDict (<["publications" := VList []]>
                 (<["offset" := VInt 0]> (<["epoch" := VStr ""]> ∅)))).
Proof.
  exact (Core.empty_envelope_results (server (mkResponse 200 empty_body))
           json_loads client (Core.History (VStr "ch") None None None)
           (<["channel" := VStr "ch"]>
              (<["limit" := VInt 0]> (<["since" := VNone]>
                 (<["reverse" := VBool false]> ∅))))
           [] (mkResponse 200 empty_body) ∅
           eq_refl eq_refl eq_refl eq_refl eq_refl eq_refl).
Defined.

(** An instance of X6: [history] on the envelope [{"result": null}]. *)
Lemma result_not_an_object_witness :
  exists msg,
    fst (Core.call (server (mkResponse 200 "")) null_result_loads client
           (Core.History (VStr "ch") None None None) [])
    = inl (AttributeError msg).
Proof.
  refine (Core.result_not_an_object (server (mkResponse 200 ""))
            null_result_loads client (Core.History (VStr "ch") None None None)
            (<["channel" := VStr "ch"]>
               (<["limit" := VInt 0]> (<["since" := VNone]>
                  (<["reverse" := VBool false]> ∅))))
            [] (mkResponse 200 "") (<["result" := VNone]> ∅) VNone
            eq_refl eq_refl eq_refl eq_refl eq_refl eq_refl _).
  intros r. discriminate.
Defined.

(** An instance of X10: [SubscribeMethod(user="user", channel="personal:1")]. *)
Lemma subscribe_minimal_body_witness :
  exists m,
    construct validate SubscribeMethod
      (<["user" := OVal (VStr "user")]>
         (<["channel" := OVal (VStr "personal:1")]> ∅)) = inr m
    ∧ json_data true m =
        inr (<["user" := VStr "user"]> (<["channel" := VStr "personal:1"]> ∅)).
Proof.
  exact (subscribe_minimal_body validate (OVal (VStr "user"))
           (OVal (VStr "personal:1")) (OVal (VStr "user"))
           (OVal (VStr "personal:1")) eq_refl eq_refl eq_refl eq_refl).
Defined.

(** An instance of X8: a subscribe descriptor whose [override] has no field
    set. *)
Lemma nested_model_is_dumped_witness :
  (<["user" := VStr "u"]> (<["override" := VDict ∅]> ∅) : gmap string value)
    !! "override" = Some (VDict (list_to_map (dump_fields true [("presence", PyNone)])))
  ∧ (Forall (fun kx : string * obj => is_none kx.2 = true) [("presence", PyNone)] ->
     (<["user" := VStr "u"]> (<["override" := VDict ∅]> ∅) : gmap string value)
       !! "override" = Some (VDict ∅)).
Proof.
  refine (nested_model_is_dumped SubscribeMethod
            [ ("user", OVal (VStr "u"));
              ("override", OModel ChannelOptionsOverride [("presence", PyNone)]) ]
            "override" ChannelOptionsOverride [("presence", PyNone)]
            (<["user" := VStr "u"]> (<["override" := VDict ∅]> ∅)) _ _ _).
  - apply (bool_decide_unpack (NoDup _)). vm_compute. exact I.
  - apply elem_of_cons. right. apply elem_of_cons. left. reflexivity.
  - vm_compute. reflexivity.
Defined.


(** An instance of X11: the call of section 8 reaches the session. *)
Lemma typed_method_calls_session_witness :
  Sync.run (list (obj * obj)) validate sync_session Sync.PublishCall sync_client
    publish_kwargs [] =
    sync_session sync_client publish_method PyNone [].
Proof.
  refine (proj1 (Sync.typed_method_calls_session (list (obj * obj)) validate
                   sync_session Sync.PublishCall sync_client publish_kwargs []
                   publish_method _ _ _)).
  - apply (bool_decide_unpack (_ ⊆ _)). vm_compute. exact I.
  - intros p Hp. cbn in Hp.
    apply elem_of_cons in Hp as [->|Hp]; [eexists; reflexivity|].
    apply elem_of_cons in Hp as [->|Hp]; [eexists; reflexivity|].
    inversion Hp.
  - vm_compute. reflexivity.
Defined.

(** An instance of X12: [publish(..., tags=None)] and [publish(...)]. *)
Lemma optional_none_is_omitted_witness :
  Sync.run (list (obj * obj)) validate sync_session Sync.PublishCall sync_client
    (<["tags" := PyNone]> kwargs_without_channel) [] =
  Sync.run (list (obj * obj)) validate sync_session Sync.PublishCall sync_client
    kwargs_without_channel [].
Proof.
  refine (Sync.optional_none_is_omitted (list (obj * obj)) validate sync_session
            Sync.PublishCall sync_client kwargs_without_channel [] "tags" _ _).
  - unfold Sync.optional_parameters.
    apply elem_of_cons. right. apply elem_of_cons. left. reflexivity.
  - reflexivity.
Defined.

(** An instance of X13: [publish(..., retries=3)]. *)
Lemma unexpected_keyword_is_local_witness :
  exists msg,
    Sync.run (list (obj * obj)) validate sync_session Sync.PublishCall sync_client
      (<["retries" := OVal (VInt 3)]> publish_kwargs) [] = (inl (TypeError msg), []).
Proof.
  refine (Sync.unexpected_keyword_is_local (list (obj * obj)) validate
            sync_session Sync.PublishCall sync_client
            (<["retries" := OVal (VInt 3)]> publish_kwargs) [] "retries" _ _ _).
  - apply (bool_decide_unpack (_ ∉ _)). vm_compute. exact I.
  - apply (bool_decide_unpack (_ ∉ _)). vm_compute. exact I.
  - eexists. reflexivity.
Defined.

(** An instance of X15: [async with session: a publish]. *)
Lemma context_manager_closes_witness :
  Async.open_session
    (Async.self
       (snd (Async.__aexit__
               (snd (make_request (mkResponse 200 publish_body) async_client
                       publish_method VNone (snd (Async.__aenter__ session0)))))))
  = None.
Proof.
  destruct (Async.context_manager_closes (server (mkResponse 200 publish_body))
              "Python/3.11 aiohttp/3.9" "5.0.0" check_response async_client
              PublishMethod publish_fields "publish" VNone session0 eq_refl)
    as (_ & _ & Hnone & _).
  exact Hnone.
Defined.

(** An instance of X16: two publishes on a new session object, the first
    against a server that cannot be reached. *)
Lemma consecutive_requests_share_session_witness :
  Async.created
    (snd (Async.make_request (unreachable (OtherError "ClientConnectorError"))
            "Python/3.11 aiohttp/3.9" "5.0.0" check_response async_client
            publish_method VNone
            (snd (Async.make_request (unreachable (OtherError "ClientConnectorError"))
                    "Python/3.11 aiohttp/3.9" "5.0.0" check_response async_client
                    publish_method VNone session0)))) = 1%nat.
Proof.
  destruct (Async.consecutive_requests_share_session
              (unreachable (OtherError "ClientConnectorError"))
              "Python/3.11 aiohttp/3.9" "5.0.0" check_response
              async_client PublishMethod publish_fields "publish" VNone
              async_client PublishMethod publish_fields "publish" VNone
              session0 eq_refl eq_refl) as [Hcreated _].
  exact Hcreated.
Defined.

(** An instance of X17: the name of a method where a descriptor belongs. *)
Lemma not_a_method_raises_witness :
  exists msg,
    fst (make_request (mkResponse 200 publish_body) async_client
           (OVal (VStr "publish")) VNone session0) = inl (AttributeError msg).
Proof.
  refine (proj1 (Async.not_a_method_raises (server (mkResponse 200 publish_body))
                   "Python/3.11 aiohttp/3.9" "5.0.0" check_response async_client
                   (OVal (VStr "publish")) VNone session0 _)).
  intros cls fields Hm. discriminate.
Defined.

(** An instance of X18: the headers of the first request of a new session
    object. *)
Lemma request_headers_exact_witness :
  Async.Posted 0 (publish_request VNone) ∈ Async.trace session0
  ∨ headers (publish_request VNone) =
      <["X-API-Key" := "secret"]>
        (<["User-Agent" := "Python/3.11 aiohttp/3.9 pycent/5.0.0"]>
          (<["Content-Type" := "application/json"]>
            (<["X-Centrifugo-Error-Mode" := "transport"]> ∅))).
Proof.
  assert (Hinv : Async.has_default_headers "Python/3.11 aiohttp/3.9" "5.0.0"
                   session0) by (intros s Hs; cbn in Hs; discriminate).
  destruct (Async.request_headers_exact (server (mkResponse 200 publish_body))
              "Python/3.11 aiohttp/3.9" "5.0.0" check_response async_client
              publish_method VNone session0 Hinv) as (_ & _ & _ & Hreq).
  exact (Hreq 0%nat _ (publish_request_posted VNone)).
Defined.

(** An instance of X19: the publish of section 8 goes to [.../publish]. *)
Lemma method_name_in_url_witness :
  exists pre sid req,
    Async.trace (snd (make_request (mkResponse 200 publish_body) async_client
                        publish_method VNone session0)) = pre ++ [Async.Posted sid req]
    ∧ url req = "http://localhost:8000/api/publish"
    ∧ json req !! "method" = None.
Proof.
  refine (proj1 (Async.method_name_in_url (server (mkResponse 200 publish_body))
                   "Python/3.11 aiohttp/3.9" "5.0.0" check_response validate
                   async_client PublishMethod publish_kwargs publish_method
                   "publish" VNone session0 _ _ eq_refl eq_refl)).
  - apply (bool_decide_unpack (NoDup _)). vm_compute. exact I.
  - apply (bool_decide_unpack (_ ∉ _)). vm_compute. exact I.
Defined.


(** A session of the caller's, with a key under another spelling and a
    header of its own, held as object 0. *)
Definition custom_session : Core.Session :=
  Core.mkSession
    (<["authorization" := "apikey old"]> (<["X-Trace" := "on"]> ∅)) (VInt 30).

Definition custom_world : Core.world :=
  Core.mkWorld (<[0%nat := custom_session]> ∅) [].

(** An instance of X7: [Client(address, "secret", session=custom_session)]. *)
Lemma custom_session_headers_kept_witness :
  exists s',
    Core.__init__ httpx_Client "http://localhost:8000/api" (Some "secret") None
      (Some 0%nat) custom_world =
      (inr (Core.mkInstance "http://localhost:8000/api" "secret" (VInt 1) 0),
       Core.mkWorld (<[0%nat := s']> (Core.sessions custom_world))
         (Core.log custom_world))
    ∧ Core.session_headers s' !! "Authorization" = Some "apikey secret"
    ∧ (forall h, h ≠ "Authorization" -> Core.lower h = "authorization" ->
         Core.session_headers s' !! h = None)
    ∧ (forall h, Core.lower h ≠ "authorization" ->
         Core.session_headers s' !! h = Core.session_headers custom_session !! h)
    ∧ Core.session_timeout s' = VInt 1
    ∧ (forall op payload,
         Core.payload_of op = inr payload ->
         exists req rest,
           Core.log (snd (Core.invoke (server (mkResponse 200 publish_body))
                            json_loads
                            (Core.mkInstance "http://localhost:8000/api" "secret"
                               (VInt 1) 0) op
                            (Core.mkWorld
                               (<[0%nat := s']> (Core.sessions custom_world))
                               (Core.log custom_world))))
           = Core.log custom_world ++ Post req :: rest
           ∧ (forall r', Post r' ∉ rest)
           ∧ (forall h v, Core.lower h ≠ "authorization" ->
                Core.session_headers custom_session !! h = Some v ->
                headers req !! h = Some v)).
Proof.
  exact (Core.custom_session_headers_kept (server (mkResponse 200 publish_body))
           json_loads httpx_Client "http://localhost:8000/api" (Some "secret")
           None 0%nat custom_session custom_world eq_refl).
Defined.

Example custom_session_request :
  Core.log (snd (Core.invoke (server (mkResponse 200 publish_body)) json_loads
                   (Core.mkInstance "http://localhost:8000/api" "secret" (VInt 1) 0)
                   publish_op
                   (snd (Core.__init__ httpx_Client "http://localhost:8000/api"
                           (Some "secret") None (Some 0%nat) custom_world))))
  = [Post (mkRequest "http://localhost:8000/api"
             (<["Authorization" := "apikey secret"]> (<["X-Trace" := "on"]> ∅))
             (<["method" := VStr "publish"]> publish_payload) (VInt 1));
     Decode publish_body].
Proof. vm_compute. reflexivity. Qed.

End Scenario.
